(** * kai-ai: the sub-agent dispatcher and the coding task catalog

    A shallow embedding of [src/subagent.py] and of the dispatching part of
    [src/agent.py] ([MorphAgent.split_subagents] and
    [CodingAgent._generate_coding_tasks] with its five generators).

    Conventions.
    - A Python [str] is a [string]; a literal of the source is the string of
      its UTF-8 bytes, so that concatenation is concatenation.
    - A Python [int] is a [Z]; positions in a list and the counter of
      [enumerate] are [nat].
    - The dictionaries appended to [results] have string keys and string
      values: they are [gmap string string].
    - A call that may raise returns a [py_result]: [Return v] or [Raise e]. *)

From stdpp Require Import base list gmap strings pretty.

(** ** Python exceptions *)

(** The exception classes that occur in the modelled code or that a worker
    or a signal handler can raise.  [KeyboardInterrupt] and [SystemExit]
    derive from [BaseException] only: [except Exception] lets them pass. *)
Inductive exn_class : Type :=
  | ValueError
  | RuntimeError
  | KeyboardInterrupt
  | SystemExit.

Record exn : Type := mk_exn { exn_cls : exn_class; exn_msg : string }.

(** [isinstance(exc, Exception)] *)
Definition isinstance_Exception (e : exn) : bool :=
  match exn_cls e with
  | ValueError | RuntimeError => true
  | KeyboardInterrupt | SystemExit => false
  end.

(** [str(exc)] for an exception built from one message argument. *)
Definition str_exn (e : exn) : string := exn_msg e.

Inductive py_result (A : Type) : Type :=
  | Return (v : A)
  | Raise (e : exn).
Arguments Return {A} v.
Arguments Raise {A} e.

(** ** Python list slicing [l[:stop]] *)

(** A negative [stop] counts from the end and is clipped at the start of the
    list; a [stop] beyond the end is clipped at the end. *)
Definition slice_to {A : Type} (l : list A) (stop : Z) : list A :=
  if (stop <? 0)%Z
  then take (Z.to_nat (Z.max 0 (Z.of_nat (length l) + stop))) l
  else take (Z.to_nat stop) l.

(** ** Python list slicing [l[start:]] *)

(** A negative [start] counts from the end and is clipped at the start of
    the list; [-0] is [0], so [l[-0:]] is the whole list. *)
Definition slice_from {A : Type} (l : list A) (start : Z) : list A :=
  if (start <? 0)%Z
  then drop (Z.to_nat (Z.max 0 (Z.of_nat (length l) + start))) l
  else drop (Z.to_nat start) l.

(** The line feed that [print] writes after its arguments. *)
Definition newline : string := String (Ascii.ascii_of_nat 10) EmptyString.

(** [sep.join(parts)] *)
Definition join (sep : string) (parts : list string) : string :=
  String.concat sep parts.

(** ** src/subagent.py *)

Module SubAgent.

Record t : Type := __init__ { task : string }.

(** [run]: echoes the task; the body has no raising operation. *)
Definition run (self : t) : py_result string :=
  Return ("SubAgent completed task: " +:+ task self).

End SubAgent.

(** ** concurrent.futures, as far as [split_subagents] uses it *)

Module futures.

(** The state of a [ThreadPoolExecutor], as CPython keeps it: the budget
    [_max_workers], the number of threads started ([len(_threads)]), the
    value of [_idle_semaphore], and the work items by the position of
    their submission: waiting in [_work_queue], being run by a thread, or
    finished (in the order they finished).  [submitted] counts the calls
    of [submit] so far. *)
Record pool : Type := mk_pool {
  max_workers : Z;
  threads : nat;
  idle_semaphore : nat;
  work_queue : list nat;
  running : list nat;
  finished : list nat;
  submitted : nat
}.

(** [ThreadPoolExecutor.__init__]: a budget that is not positive is
    refused with a [ValueError]; otherwise the executor exists and has
    started no thread yet. *)
Definition ThreadPoolExecutor (max_workers : Z) : py_result pool :=
  if (max_workers <=? 0)%Z
  then Raise (mk_exn ValueError "max_workers must be greater than 0")
  else Return (mk_pool max_workers 0 0 [] [] [] 0).

(** [_adjust_thread_count], called by every [submit]: an idle thread is
    claimed if the semaphore has one; otherwise a thread is started,
    unless the budget is used up. *)
Definition _adjust_thread_count (p : pool) : pool :=
  match idle_semaphore p with
  | S v =>
      mk_pool (max_workers p) (threads p) v
              (work_queue p) (running p) (finished p) (submitted p)
  | O =>
      if (Z.of_nat (threads p) <? max_workers p)%Z
      then mk_pool (max_workers p) (S (threads p)) 0
                   (work_queue p) (running p) (finished p) (submitted p)
      else p
  end.

(** What can happen next while [split_subagents] runs:
    - [Submit]: the calling thread submits the next template;
    - [Start]: a thread that runs nothing takes the oldest work item;
    - [Finish k]: the [k]-th running work item ends, and its thread
      releases the idle semaphore. *)
Inductive action : Type :=
  | Submit
  | Start
  | Finish (k : nat).

(** One step of a call that submits [n] work items; [None] when the
    action is not possible in [p]. *)
Definition step (n : nat) (a : action) (p : pool) : option pool :=
  match a with
  | Submit =>
      if decide (submitted p < n)
      then Some (_adjust_thread_count
                   (mk_pool (max_workers p) (threads p) (idle_semaphore p)
                            (work_queue p ++ [submitted p]) (running p)
                            (finished p) (S (submitted p))))
      else None
  | Start =>
      match work_queue p with
      | i :: queue' =>
          if decide (length (running p) < threads p)
          then Some (mk_pool (max_workers p) (threads p) (idle_semaphore p)
                             queue' (running p ++ [i]) (finished p)
                             (submitted p))
          else None
      | [] => None
      end
  | Finish k =>
      match running p !! k with
      | Some i =>
          Some (mk_pool (max_workers p) (threads p) (S (idle_semaphore p))
                        (work_queue p) (delete k (running p))
                        (finished p ++ [i]) (submitted p))
      | None => None
      end
  end.

Fixpoint exec (n : nat) (acts : list action) (p : pool) : option pool :=
  match acts with
  | [] => Some p
  | a :: acts' =>
      match step n a p with
      | Some p' => exec n acts' p'
      | None => None
      end
  end.

(** A future that has finished: [result()] returns what the submitted
    callable returned, or raises again what it raised. *)
Record Future : Type := submit { result : py_result string }.

(** What the thread that iterates over [as_completed(fs)] observes, one
    item per [next()]: the future at position [i] of [fs] is handed out,
    or an exception [e] is raised in the iterating thread while it blocks
    (a signal handler that raises, such as the [sys.exit] of the CLI's
    [handle_terminate]). *)
Inductive wait_event : Type :=
  | Completed (i : nat)
  | Interrupted (e : exn).

Definition next_of (fs : list Future) (ev : wait_event)
  : option (py_result Future) :=
  match ev with
  | Completed i => Return <$> fs !! i
  | Interrupted e => Some (Raise e)
  end.

(** [as_completed(fs)] under a schedule: the list of the outcomes of its
    successive [next()] calls.  The generator hands out every future of
    [fs] once: those that are already finished when it starts in the
    iteration order of a set, the others as they finish.  So a schedule
    without interruption is [Completed <$> order] for a permutation
    [order] of the positions of [fs], the hand-out order, which need be
    neither the order of submission nor the order of completion. *)
Definition as_completed (sched : list wait_event) (fs : list Future)
  : list (py_result Future) :=
  omap (next_of fs) sched.

End futures.

(** ** src/agent.py: MorphAgent *)

Module MorphAgent.

Import futures.

(** The dictionary appended for a future whose [result()] returned. *)
Definition success_entry (idx : nat) (res : string) : gmap string string :=
  {[ "task_id" := "T" +:+ pretty idx; "status" := "success"; "result" := res ]}.

(** The dictionary appended for a future whose [result()] raised. *)
Definition error_entry (idx : nat) (exc : exn) : gmap string string :=
  {[ "task_id" := "T" +:+ pretty idx; "status" := "error"; "error" := str_exn exc ]}.

(** The loop [for idx, future in enumerate(as_completed(futures), 1)]:
    [idx] is the counter of [enumerate], [it] what is left of the
    iterator, [results] the list built so far.  An exception raised by
    the iterator itself is outside the [try]; inside it, [except
    Exception] catches the instances of [Exception] only. *)
Fixpoint drain (idx : nat) (it : list (py_result Future))
    (results : list (gmap string string))
  : py_result (list (gmap string string)) :=
  match it with
  | [] => Return results
  | Raise e :: _ => Raise e
  | Return future :: it' =>
      match result future with
      | Return res => drain (S idx) it' (results ++ [success_entry idx res])
      | Raise exc =>
          if isinstance_Exception exc
          then drain (S idx) it' (results ++ [error_entry idx exc])
          else Raise exc
      end
  end.

(** What a call leaves behind: the tasks of the worker objects whose
    [run] was invoked (every submitted callable is run before the [with]
    block is left, since leaving it joins the pool), and what the call
    returned or raised. *)
Record call (A : Type) : Type :=
  mk_call { invoked : list string; outcome : py_result A }.
Arguments mk_call {A} invoked outcome.
Arguments invoked {A} c.
Arguments outcome {A} c.

Section Dispatch.

(** The [run] method of the worker class; [SubAgent.run] in the
    source. *)
Variable run : SubAgent.t → py_result string.

Definition split_subagents_with (num_agents : Z)
    (task_templates : list string) (sched : list wait_event)
  : call (list (gmap string string)) :=
  let results := [] in
  match ThreadPoolExecutor num_agents with
  | Raise e => mk_call [] (Raise e)
  | Return executor =>
      let futures :=
        (λ template, submit (run (SubAgent.__init__ template)))
          <$> task_templates in
      mk_call task_templates (drain 1 (as_completed sched futures) results)
  end.

End Dispatch.

Definition split_subagents : Z → list string → list wait_event
    → call (list (gmap string string)) :=
  split_subagents_with SubAgent.run.

(** *** Message handling *)

(** The part of the agent that message handling touches: the list
    [conversation_history], and the text printed on the console. *)
Record session : Type :=
  mk_session { conversation_history : list (gmap string string);
               stdout : string }.

(** The dictionary [{"role": role, "content": content}]. *)
Definition message (role content : string) : gmap string string :=
  {[ "role" := role; "content" := content ]}.

(** The loop of [_stream_chat] over the streamed response.  An item of
    [response] is what [chunk.choices[0].delta.content] evaluates to for
    the next chunk ([None] when the chunk carries no text), or the
    exception that the stream or that expression raises. *)
Fixpoint collect_stream (response : list (py_result (option string)))
    (collected : list string) (out : string)
  : py_result (list string) * string :=
  match response with
  | [] => (Return collected, out)
  | Raise e :: _ => (Raise e, out)
  | Return content :: response' =>
      let delta := default "" content in
      collect_stream response' (collected ++ [delta]) (out +:+ delta)
  end.

Section Chat.

(** [self.client.chat.completions.create(model=..., messages=..., stream=True)]:
    the external model, which answers the messages with a stream or
    raises. *)
Variable client :
  list (gmap string string) → py_result (list (py_result (option string))).

Definition _stream_chat (self : session) : py_result string * session :=
  match client (conversation_history self) with
  | Raise e => (Raise e, self)
  | Return response =>
      match collect_stream response [] (stdout self) with
      | (Raise e, out) => (Raise e, mk_session (conversation_history self) out)
      | (Return collected, out) =>
          (Return (join "" collected),
           mk_session (conversation_history self) (out +:+ newline))
      end
  end.

Definition process_message (self : session) (user_input : string)
  : py_result unit * session :=
  let self1 :=
    mk_session (conversation_history self ++ [message "user" user_input])
               (stdout self) in
  match _stream_chat self1 with
  | (Raise e, self2) => (Raise e, self2)
  | (Return assistant_reply, self2) =>
      (Return tt,
       mk_session
         (conversation_history self2 ++ [message "assistant" assistant_reply])
         (stdout self2))
  end.

End Chat.

End MorphAgent.

(** ** src/agent.py: CodingAgent, the task generators *)

Module CodingAgent.

(** The list [tasks] of [_generate_review_tasks]. *)
Definition review_tasks : list string :=
  [ "审查代码规范与风格，检查PEP8合规性";
    "分析代码性能瓶颈，提出优化建议";
    "识别潜在安全漏洞与风险点";
    "评估代码可读性与可维护性";
    "检查错误处理与边界情况覆盖" ].

Definition _generate_review_tasks (num_agents : Z) (project_id : option string)
  : list string :=
  slice_to review_tasks num_agents.

(** The list [tasks] of [_generate_refactor_tasks]. *)
Definition refactor_tasks : list string :=
  [ "重构函数与类结构，提升代码复用性";
    "优化变量与函数命名，提高可读性";
    "简化复杂逻辑，拆分大型函数";
    "消除代码重复，提取公共功能";
    "优化导入结构，减少循环依赖" ].

Definition _generate_refactor_tasks (num_agents : Z) (project_id : option string)
  : list string :=
  slice_to refactor_tasks num_agents.

(** The list [tasks] of [_generate_test_tasks]. *)
Definition test_tasks : list string :=
  [ "编写单元测试，覆盖核心功能";
    "设计集成测试，验证模块交互";
    "创建边界条件与异常测试用例";
    "实现性能测试，建立基准指标";
    "生成测试报告与覆盖率分析" ].

Definition _generate_test_tasks (num_agents : Z) (project_id : option string)
  : list string :=
  slice_to test_tasks num_agents.

(** The list [tasks] of [_generate_document_tasks]. *)
Definition document_tasks : list string :=
  [ "编写API文档，说明函数与类用法";
    "创建项目 README，介绍整体功能";
    "生成开发指南，指导环境配置与开发流程";
    "编写用户手册，说明系统使用方法";
    "整理架构设计文档，描述系统结构" ].

Definition _generate_document_tasks (num_agents : Z) (project_id : option string)
  : list string :=
  slice_to document_tasks num_agents.

(** The list [tasks] of [_generate_debug_tasks]. *)
Definition debug_tasks : list string :=
  [ "定位运行时错误，分析堆栈跟踪";
    "排查逻辑错误，验证算法正确性";
    "检查数据处理错误，验证输入输出";
    "分析性能问题，识别瓶颈代码";
    "验证并发场景下的线程安全问题" ].

Definition _generate_debug_tasks (num_agents : Z) (project_id : option string)
  : list string :=
  slice_to debug_tasks num_agents.

(** The dictionary [task_generators], from task type to generator. *)
Definition task_generators : gmap string (Z → option string → list string) :=
  {[ "code_review" := _generate_review_tasks;
     "refactor" := _generate_refactor_tasks;
     "test" := _generate_test_tasks;
     "document" := _generate_document_tasks;
     "debug" := _generate_debug_tasks ]}.

Definition _generate_coding_tasks (task_type : string) (num_agents : Z)
    (project_id : option string) : py_result (list string) :=
  match task_generators !! task_type with
  | None => Raise (mk_exn ValueError ("不支持的任务类型: " +:+ task_type))
  | Some generator => Return (generator num_agents project_id)
  end.

(** [split_coding_subagents]; [code_projects] is the dictionary of the
    projects by id, of which only the keys matter here.  [if project_id]
    is false for [None] and for the empty string. *)
Definition split_coding_subagents {P : Type} (code_projects : gmap string P)
    (task_type : string) (num_agents : Z) (project_id : option string)
    (sched : list futures.wait_event)
  : MorphAgent.call (list (gmap string string)) :=
  let dispatch :=
    match _generate_coding_tasks task_type num_agents project_id with
    | Raise e => MorphAgent.mk_call [] (Raise e)
    | Return task_templates =>
        MorphAgent.split_subagents num_agents task_templates sched
    end in
  match project_id with
  | None => dispatch
  | Some id =>
      if negb (String.eqb id "") && bool_decide (code_projects !! id = None)
      then MorphAgent.mk_call []
             (Raise (mk_exn ValueError ("项目ID不存在: " +:+ id)))
      else dispatch
  end.

End CodingAgent.

(** ** src/utils.py *)

Module utils.

(** [truncate_history]; the messages themselves are not inspected. *)
Definition truncate_history {A : Type} (history : list A) (max_messages : Z)
  : list A :=
  if (Z.of_nat (length history) <=? max_messages)%Z
  then history
  else slice_from history (- max_messages).

End utils.

(** ** src/tools.py: the registry of [Toolkit] *)

Module Toolkit.

Section Registry.

(** What a tool is called with (the positional and keyword arguments) and
    what a call gives. *)
Context {Args R : Type}.

(** A call either runs the tool, or raises the [KeyError] of [call]. *)
Inductive call_result : Type :=
  | Called (r : R)
  | KeyError (msg : string).

(** [register]: [self._tools[name] = func] *)
Definition register (_tools : gmap string (Args → R)) (name : string)
    (func : Args → R) : gmap string (Args → R) :=
  <[name := func]> _tools.

Definition call (_tools : gmap string (Args → R)) (name : string)
    (args : Args) : call_result :=
  match _tools !! name with
  | None => KeyError ("Tool '" +:+ name +:+ "' not registered")
  | Some func => Called (func args)
  end.

(** The ten static methods that [_register_builtin_tools] registers. *)
Variables _read_file _write_file _append_file _list_dir _grep _run_shell
  _save_workspace _load_prompt _init_workspace _create_project : Args → R.

Definition _register_builtin_tools (_tools : gmap string (Args → R))
  : gmap string (Args → R) :=
  let t1 := register _tools "read_file" _read_file in
  let t2 := register t1 "write_file" _write_file in
  let t3 := register t2 "append_file" _append_file in
  let t4 := register t3 "list_dir" _list_dir in
  let t5 := register t4 "grep" _grep in
  let t6 := register t5 "run_shell" _run_shell in
  let t7 := register t6 "save_workspace" _save_workspace in
  let t8 := register t7 "load_prompt" _load_prompt in
  let t9 := register t8 "init_workspace" _init_workspace in
  register t9 "create_project" _create_project.

(** [Toolkit()] *)
Definition __init__ : gmap string (Args → R) :=
  _register_builtin_tools ∅.

End Registry.

Arguments call_result : clear implicits.

End Toolkit.

(** ** src/cli.py: the todo list of [MorphCLIController] *)

Module MorphCLIController.

(** A todo item as the program writes it: the dictionary with the keys
    [text] and [done]. *)
Record todo : Type := mk_todo { text : string; done : bool }.

(** An element of the list [pending] of [handle_split_command]: a
    reference to the item at position [i] of [self.todos] (the same
    object, not a copy), or a placeholder string. *)
Inductive pending_item : Type :=
  | Ref (i : nat) (item : todo)
  | Placeholder (s : string).

(** [[t for t in self.todos if not t.get("done")]] *)
Definition undone (todos : list todo) : list pending_item :=
  (λ it : nat * todo, Ref it.1 it.2)
    <$> filter (λ it : nat * todo, done it.2 = false) (imap pair todos).

(** [item if isinstance(item, str) else item["text"]] *)
Definition task_of (item : pending_item) : string :=
  match item with
  | Ref _ t => text t
  | Placeholder s => s
  end.

(** [if isinstance(item, dict): item["done"] = True], on the shared
    items. *)
Definition mark_done (todos : list todo) (item : pending_item) : list todo :=
  match item with
  | Ref i _ => alter (λ t, mk_todo (text t) true) i todos
  | Placeholder _ => todos
  end.

(** What a command handler leaves: [self.todos], what it handed to
    [split_subagents] if it got that far, and what it returned or
    raised.  The console output and the content of the files written are
    not part of the model. *)
Record handled : Type :=
  mk_handled { todos_after : list todo;
               dispatched : option (Z * list string);
               returned : py_result bool }.

Section Commands.

(** The built-ins [str.isdigit] and [int]. *)
Variable isdigit : string → bool.
Variable int : string → py_result Z.

(** Writing the results to the file [split_output]:
    [out.write_text(json.dumps(results, ...))], which the file system may
    refuse. *)
Variable write_results : list (gmap string string) → py_result unit.

Definition handle_split_command (todos : list todo) (args : list string)
    (sched : list futures.wait_event) : handled :=
  match args with
  | [] => mk_handled todos None (Return true)
  | arg :: _ =>
      if negb (isdigit arg) then mk_handled todos None (Return true)
      else
        match int arg with
        | Raise e => mk_handled todos None (Raise e)
        | Return n =>
            let pending := slice_to (undone todos) n in
            let pending :=
              if (Z.of_nat (length pending) <? n)%Z
              then pending
                   ++ replicate (Z.to_nat (n - Z.of_nat (length pending)))
                        (Placeholder "空任务")
              else pending in
            let tasks := task_of <$> pending in
            match MorphAgent.outcome (MorphAgent.split_subagents n tasks sched) with
            | Raise e => mk_handled todos (Some (n, tasks)) (Raise e)
            | Return results =>
                let todos' := foldl mark_done todos pending in
                match write_results results with
                | Raise e => mk_handled todos' (Some (n, tasks)) (Raise e)
                | Return _ => mk_handled todos' (Some (n, tasks)) (Return true)
                end
            end
        end
  end.

Definition handle_todo_command (todos : list todo) (args : list string)
  : handled :=
  match args with
  | [] => mk_handled todos None (Return true)
  | op :: rest =>
      if String.eqb op "list" then mk_handled todos None (Return true)
      else if String.eqb op "add" then
        let text := join " " rest in
        if String.eqb text "" then mk_handled todos None (Return true)
        else mk_handled (todos ++ [mk_todo text false]) None (Return true)
      else
        match rest with
        | number :: _ =>
            if String.eqb op "done" && isdigit number then
              match int number with
              | Raise e => mk_handled todos None (Raise e)
              | Return v =>
                  let idx := (v - 1)%Z in
                  if ((0 <=? idx) && (idx <? Z.of_nat (length todos)))%Z
                  then mk_handled
                         (alter (λ t, mk_todo (text t) true) (Z.to_nat idx) todos)
                         None (Return true)
                  else mk_handled todos None (Return true)
              end
            else mk_handled todos None (Return true)
        | [] => mk_handled todos None (Return true)
        end
  end.

End Commands.

End MorphCLIController.

Import futures.

(** ** Notions used in the statements *)

(** What [except Exception] can handle: a value, or an instance of
    [Exception]. *)
Definition catchable (r : py_result string) : Prop :=
  match r with
  | Return _ => True
  | Raise exc => isinstance_Exception exc = true
  end.

(** The dictionary the loop appends, with counter [idx], for a future that
    ended as [r]. *)
Definition entry_of (idx : nat) (r : py_result string) : gmap string string :=
  match r with
  | Return res => MorphAgent.success_entry idx res
  | Raise exc => MorphAgent.error_entry idx exc
  end.

(** The templates in the order their futures are handed out. *)
Definition handed_out {A : Type} (order : list nat) (l : list A) : list A :=
  omap (λ i, l !! i) order.

(** An outcome has exactly one of the fields [result] and [error], the one
    its status announces. *)
Definition outcome_wf (d : gmap string string) : Prop :=
  (is_Some (d !! "result") ↔ d !! "status" = Some "success")
  ∧ (is_Some (d !! "error") ↔ d !! "status" = Some "error")
  ∧ ¬ (is_Some (d !! "result") ∧ is_Some (d !! "error"))
  ∧ (is_Some (d !! "result") ∨ is_Some (d !! "error")).

(** A worker that fails on the task [b] and echoes every other task. *)
Definition fails_on_b (self : SubAgent.t) : py_result string :=
  if decide (SubAgent.task self = "b")
  then Raise (mk_exn RuntimeError "boom")
  else SubAgent.run self.


(** Labelling by submission: under every completion order the outcome at
    position [i] is labelled [T<i+1>] and is the outcome of the [i]-th
    submitted template. *)
Definition submission_order_labeling : Prop :=
  ∀ (num_agents : Z) (task_templates : list string) (order : list nat),
    (1 ≤ num_agents)%Z →
    order ≡ₚ seq 0 (length task_templates) →
    ∃ outs,
      MorphAgent.outcome
        (MorphAgent.split_subagents num_agents task_templates (Completed <$> order))
      = Return outs
      ∧ ∀ i template,
          task_templates !! i = Some template →
          ∃ d, outs !! i = Some d
               ∧ d !! "task_id" = Some ("T" +:+ pretty (S i))
               ∧ d !! "result" = Some ("SubAgent completed task: " +:+ template).

(** Cancellation reported in the outcomes: when the calling thread is
    interrupted after the tasks in [finished_first] have completed and
    before the others have, the call still returns one outcome per
    template, the completed tasks with their results and every other task
    with status [error] and an error detail. *)
Definition cancellation_reported : Prop :=
  ∀ (num_agents : Z) (task_templates : list string)
    (finished_first : list nat) (e : exn),
    (1 ≤ num_agents)%Z →
    NoDup finished_first →
    Forall (λ i, i < length task_templates) finished_first →
    length finished_first < length task_templates →
    ∃ outs,
      MorphAgent.outcome
        (MorphAgent.split_subagents num_agents task_templates
           ((Completed <$> finished_first) ++ [Interrupted e]))
      = Return outs
      ∧ length outs = length task_templates
      ∧ (∀ i t, i ∈ finished_first → task_templates !! i = Some t →
                ∃ d, d ∈ outs
                     ∧ d !! "result" = Some ("SubAgent completed task: " +:+ t))
      ∧ (∀ i, i < length task_templates → i ∉ finished_first →
              ∃ d, d ∈ outs ∧ d !! "status" = Some "error"
                   ∧ is_Some (d !! "error")).

(** What holds of the pool throughout a call that submits [n] work items:
    the threads stay within the budget and within the number of
    submissions, every running work item has a thread of its own, and the
    work items submitted so far are each in exactly one of the three
    stages. *)
Definition pool_inv (n : nat) (p : pool) : Prop :=
  (Z.of_nat (threads p) ≤ max_workers p)%Z
  ∧ threads p ≤ submitted p
  ∧ submitted p ≤ n
  ∧ length (running p) ≤ threads p
  ∧ work_queue p ++ running p ++ finished p ≡ₚ seq 0 (submitted p).

(** The five task types with the list each generator cuts. *)
Definition task_catalogs : list (string * list string) :=
  [ ("code_review", CodingAgent.review_tasks);
    ("refactor", CodingAgent.refactor_tasks);
    ("test", CodingAgent.test_tasks);
    ("document", CodingAgent.document_tasks);
    ("debug", CodingAgent.debug_tasks) ].

(** The project id passes the check of [split_coding_subagents]: it is
    absent, empty, or the id of a project. *)
Definition project_accepted {P : Type} (code_projects : gmap string P)
    (project_id : option string) : Prop :=
  match project_id with
  | None => True
  | Some id => id = "" ∨ is_Some (code_projects !! id)
  end.

(** A worker that ends the interpreter on the task [b] and echoes every
    other task. *)
Definition exits_on_b (self : SubAgent.t) : py_result string :=
  if decide (SubAgent.task self = "b")
  then Raise (mk_exn SystemExit "1")
  else SubAgent.run self.

(** A model that answers every request with the same three chunks, the
    second without text. *)
Definition three_chunks (messages : list (gmap string string))
  : py_result (list (py_result (option string))) :=
  Return (Return <$> [Some "Hel"; None; Some "lo"]).

(** A model whose stream breaks after the first chunk. *)
Definition breaks_midway (messages : list (gmap string string))
  : py_result (list (py_result (option string))) :=
  Return ((Return <$> [Some "Hel"]) ++ Raise (mk_exn RuntimeError "reset") :: []).

(** The names under which [_register_builtin_tools] registers. *)
Definition builtin_tool_names : list string :=
  [ "read_file"; "write_file"; "append_file"; "list_dir"; "grep";
    "run_shell"; "save_workspace"; "load_prompt"; "init_workspace";
    "create_project" ].

(** The todo items that are not done, in their order. *)
Definition not_done (todos : list MorphCLIController.todo)
  : list MorphCLIController.todo :=
  filter (λ t, MorphCLIController.done t = false) todos.

(** [isdigit] and [int] on the one-digit arguments used in the examples. *)
Definition isdigit_1 (s : string) : bool :=
  bool_decide (s ∈ ["0"; "1"; "2"; "3"]).

Definition int_1 (s : string) : py_result Z :=
  if decide (s = "0") then Return 0%Z
  else if decide (s = "1") then Return 1%Z
  else if decide (s = "2") then Return 2%Z
  else if decide (s = "3") then Return 3%Z
  else Raise (mk_exn ValueError ("invalid literal for int() with base 10: '"
                                 +:+ s +:+ "'")).

(** A file system that accepts the result file. *)
Definition write_ok (results : list (gmap string string)) : py_result unit :=
  Return tt.

(** The items of [todos] that are not done, each with its position
    counted from [first]. *)
Definition undone_from (first : nat) (todos : list MorphCLIController.todo)
  : list (nat * MorphCLIController.todo) :=
  filter (λ it : nat * MorphCLIController.todo,
            MorphCLIController.done it.2 = false)
         (imap (λ k t, (first + k, t)) todos).

(** The item with its [done] field set. *)
Definition marked (t : MorphCLIController.todo) : MorphCLIController.todo :=
  MorphCLIController.mk_todo (MorphCLIController.text t) true.

(** The tasks [handle_split_command] submits for the count [n]: the
    texts of the first [n] items that are not done, filled up to [n] with
    the placeholder task. *)
Definition split_tasks (todos : list MorphCLIController.todo) (n : Z)
  : list string :=
  let picked :=
    MorphCLIController.text <$> take (Z.to_nat n) (not_done todos) in
  picked ++ replicate (Z.to_nat n - length picked) "空任务".

(** * Properties *)

Section drain_facts.

Local Open Scope nat_scope.

Lemma drain_returns (fs : list Future) :
  ∀ idx results,
    Forall (λ f, catchable (result f)) fs →
    MorphAgent.drain idx (Return <$> fs) results
    = Return (results ++ imap (λ k f, entry_of (idx + k) (result f)) fs).
Proof.
  induction fs as [|f fs IH]; intros idx results Hall; simpl.
  - by rewrite app_nil_r.
  - apply Forall_cons in Hall as [Hf Hall].
    assert (Hshift : imap ((λ k f0, entry_of (idx + k) (result f0)) ∘ S) fs
                     = imap (λ k f0, entry_of (S idx + k) (result f0)) fs).
    { apply imap_ext. intros k x _. simpl. f_equal. lia. }
    rewrite Hshift, Nat.add_0_r.
    destruct (result f) as [res|exc] eqn:Hres; simpl in *.
    + rewrite IH by done. by rewrite <- app_assoc.
    + rewrite Hf, IH by done. by rewrite <- app_assoc.
Qed.

Lemma as_completed_uninterrupted (order : list nat) (fs : list Future) :
  as_completed (Completed <$> order) fs = Return <$> handed_out order fs.
Proof.
  unfold as_completed, handed_out.
  induction order as [|i order IH]; [done|].
  cbn [fmap list_fmap omap list_omap next_of].
  destruct (fs !! i); simpl; [f_equal|]; exact IH.
Qed.

Lemma handed_out_fmap {A B : Type} (g : A → B) (order : list nat) (l : list A) :
  handed_out order (g <$> l) = g <$> handed_out order l.
Proof.
  unfold handed_out.
  induction order as [|i order IH]; [done|].
  cbn [omap list_omap]. rewrite list_lookup_fmap, IH.
  by destruct (l !! i).
Qed.

Lemma handed_out_seq_app {A : Type} (l : list A) :
  ∀ pre, handed_out (seq (length pre) (length l)) (pre ++ l) = l.
Proof.
  unfold handed_out.
  induction l as [|x l IH]; intros pre; simpl; [done|].
  rewrite lookup_app_r, Nat.sub_diag by lia. simpl. f_equal.
  specialize (IH (pre ++ [x])).
  rewrite length_app, <- app_assoc in IH. simpl in IH.
  by rewrite Nat.add_1_r in IH.
Qed.

Lemma handed_out_seq {A : Type} (l : list A) :
  handed_out (seq 0 (length l)) l = l.
Proof. apply (handed_out_seq_app l []). Qed.

Lemma handed_out_perm {A : Type} (order : list nat) (l : list A) :
  order ≡ₚ seq 0 (length l) → handed_out order l ≡ₚ l.
Proof.
  intros Hperm. unfold handed_out. rewrite Hperm.
  fold (handed_out (seq 0 (length l)) l). by rewrite handed_out_seq.
Qed.

Lemma handed_out_length {A : Type} (order : list nat) (l : list A) :
  order ≡ₚ seq 0 (length l) → length (handed_out order l) = length l.
Proof. intros Hperm. by rewrite (handed_out_perm order l Hperm). Qed.

Lemma handed_out_lookup {A : Type} (l : list A) :
  ∀ order k i,
    Forall (λ j, j < length l) order →
    order !! k = Some i → handed_out order l !! k = l !! i.
Proof.
  unfold handed_out.
  induction order as [|j order IH]; intros k i Hall Hk; [done|].
  apply Forall_cons in Hall as [Hj Hall].
  destruct (lookup_lt_is_Some_2 l j Hj) as [x Hx]. simpl. rewrite Hx.
  destruct k as [|k]; simpl in *.
  - by simplify_eq.
  - by apply IH.
Qed.

Lemma order_in_range (order : list nat) (n : nat) :
  order ≡ₚ seq 0 n → Forall (λ j, j < n) order.
Proof.
  intros Hperm. rewrite Hperm. apply Forall_forall.
  intros j Hj. apply elem_of_seq in Hj. lia.
Qed.

End drain_facts.

Section dispatch_facts.

Variable run : SubAgent.t → py_result string.

Lemma handed_out_elem_of {A : Type} (order : list nat) (l : list A) (x : A) :
  x ∈ handed_out order l → x ∈ l.
Proof.
  unfold handed_out. intros Hx.
  apply list_elem_of_omap in Hx as (i & _ & Hi).
  by eapply list_elem_of_lookup_2.
Qed.

(** An uninterrupted call with a positive budget whose workers raise
    nothing but instances of [Exception] returns one dictionary per
    future handed out, numbered from 1 in that order. *)
Lemma split_subagents_with_returns (num_agents : Z)
    (task_templates : list string) (order : list nat) :
  (1 ≤ num_agents)%Z →
  Forall (λ t, catchable (run (SubAgent.__init__ t))) task_templates →
  MorphAgent.split_subagents_with run num_agents task_templates
    (Completed <$> order)
  = MorphAgent.mk_call task_templates
      (Return (imap (λ k t, entry_of (S k) (run (SubAgent.__init__ t)))
                    (handed_out order task_templates))).
Proof.
  intros Hpos Hcatch. unfold MorphAgent.split_subagents_with, ThreadPoolExecutor.
  destruct (Z.leb_spec num_agents 0) as [Hle|_]; [lia|].
  f_equal.
  rewrite as_completed_uninterrupted, handed_out_fmap, drain_returns.
  - by rewrite imap_fmap.
  - apply Forall_fmap, Forall_forall. intros t Ht. simpl.
    rewrite Forall_forall in Hcatch. apply Hcatch.
    by eapply handed_out_elem_of.
Qed.

End dispatch_facts.

Lemma SubAgent_catchable (task_templates : list string) :
  Forall (λ t, catchable (SubAgent.run (SubAgent.__init__ t))) task_templates.
Proof. by apply Forall_forall. Qed.

Lemma success_entry_task_id idx res :
  MorphAgent.success_entry idx res !! "task_id" = Some ("T" +:+ pretty idx).
Proof. reflexivity. Qed.

Lemma success_entry_status idx res :
  MorphAgent.success_entry idx res !! "status" = Some "success".
Proof. reflexivity. Qed.

Lemma success_entry_result idx res :
  MorphAgent.success_entry idx res !! "result" = Some res.
Proof. reflexivity. Qed.

Lemma success_entry_error idx res :
  MorphAgent.success_entry idx res !! "error" = None.
Proof. reflexivity. Qed.

Lemma error_entry_task_id idx exc :
  MorphAgent.error_entry idx exc !! "task_id" = Some ("T" +:+ pretty idx).
Proof. reflexivity. Qed.

Lemma error_entry_status idx exc :
  MorphAgent.error_entry idx exc !! "status" = Some "error".
Proof. reflexivity. Qed.

Lemma error_entry_error idx exc :
  MorphAgent.error_entry idx exc !! "error" = Some (str_exn exc).
Proof. reflexivity. Qed.

Lemma error_entry_result idx exc :
  MorphAgent.error_entry idx exc !! "result" = None.
Proof. reflexivity. Qed.

Lemma entry_of_task_id idx r :
  entry_of idx r !! "task_id" = Some ("T" +:+ pretty idx).
Proof. by destruct r. Qed.

Lemma labels_of_entries {A : Type} (g : A → py_result string) (l : list A) :
  (λ d : gmap string string, d !! "task_id") <$> imap (λ k t, entry_of (S k) (g t)) l
  = (λ k, Some ("T" +:+ pretty k)) <$> seq 1 (length l).
Proof.
  rewrite fmap_imap.
  rewrite (imap_ext _ (λ k _, Some ("T" +:+ pretty (1 + k)))).
  - by rewrite (imap_seq l (λ k, Some ("T" +:+ pretty k)) 1).
  - intros k x _. simpl. apply entry_of_task_id.
Qed.

Lemma label_inj : Inj (=) (=) (λ k : nat, Some ("T" +:+ pretty k)).
Proof.
  intros j k Hjk. simpl in Hjk. injection Hjk as Hjk.
  by apply (inj pretty).
Qed.


(** ** C1: labels follow the order in which the futures are handed out *)

(** C1, as stated, fails: with two templates of which the future of the
    second is handed out first (it may have finished first), the outcome
    labelled [T1] at position 0 is the outcome of the second template, not
    of the first. *)
Lemma submission_order_labeling_fails : ¬ submission_order_labeling.
Proof.
  intros Hclaim.
  destruct (Hclaim 2%Z ["a"; "b"] [1; 0]) as (outs & Hret & Hpos).
  - lia.
  - apply perm_swap.
  - vm_compute in Hret. injection Hret as <-.
    destruct (Hpos 0 "a" eq_refl) as (d & Hd & _ & Hres).
    injection Hd as <-. vm_compute in Hres. discriminate Hres.
Qed.

(** C1, amended: for every list of task templates and every order in
    which [as_completed] hands out the futures (any permutation of the
    submitted futures, which need be neither the submission order nor the
    completion order), [split_subagents] returns one outcome per template;
    the outcome at position [k] carries the label [T<k+1>] and is the
    outcome of the template whose future was handed out [k]-th. *)
Theorem split_subagents_labels_by_hand_out
    (num_agents : Z) (task_templates : list string) (order : list nat) :
  (1 ≤ num_agents)%Z →
  order ≡ₚ seq 0 (length task_templates) →
  ∃ outs,
    MorphAgent.outcome
      (MorphAgent.split_subagents num_agents task_templates (Completed <$> order))
    = Return outs
    ∧ length outs = length task_templates
    ∧ ∀ k i template,
        order !! k = Some i →
        task_templates !! i = Some template →
        ∃ d, outs !! k = Some d
             ∧ d !! "task_id" = Some ("T" +:+ pretty (S k))
             ∧ d !! "result" = Some ("SubAgent completed task: " +:+ template).
Proof.
  intros Hpos Hperm. unfold MorphAgent.split_subagents.
  rewrite split_subagents_with_returns by (done || apply SubAgent_catchable).
  eexists. split; [reflexivity|]. split.
  - by rewrite length_imap, handed_out_length.
  - intros k i template Hk Hi.
    eexists. rewrite list_lookup_imap.
    rewrite (handed_out_lookup task_templates order k i)
      by (done || by apply order_in_range).
    rewrite Hi. simpl. split; [reflexivity|]. split; reflexivity.
Qed.

Lemma split_subagents_labels_by_hand_out_witness :
  (1 ≤ 2)%Z
  ∧ [1; 0] ≡ₚ seq 0 (length ["a"; "b"])
  ∧ ∃ outs,
      MorphAgent.outcome
        (MorphAgent.split_subagents 2 ["a"; "b"] (Completed <$> [1; 0]))
      = Return outs
      ∧ length outs = length ["a"; "b"]
      ∧ ∀ k i template,
          [1; 0] !! k = Some i →
          ["a"; "b"] !! i = Some template →
          ∃ d, outs !! k = Some d
               ∧ d !! "task_id" = Some ("T" +:+ pretty (S k))
               ∧ d !! "result" = Some ("SubAgent completed task: " +:+ template).
Proof.
  split; [lia|]. split; [apply perm_swap|].
  apply (split_subagents_labels_by_hand_out 2 ["a"; "b"] [1; 0]);
    [lia | apply perm_swap].
Defined.

(** ** C2: one outcome per template, labelled T1..Tn *)

(** C2: for every budget [num_agents >= 1] and every list of [n] templates,
    [split_subagents] returns exactly [n] outcomes, whose labels are
    [T1, ..., Tn] without duplicate or gap, and whose results are those of
    the submitted templates, one each. *)
Theorem split_subagents_complete
    (num_agents : Z) (task_templates : list string) (order : list nat) :
  (1 ≤ num_agents)%Z →
  order ≡ₚ seq 0 (length task_templates) →
  ∃ outs,
    MorphAgent.outcome
      (MorphAgent.split_subagents num_agents task_templates (Completed <$> order))
    = Return outs
    ∧ length outs = length task_templates
    ∧ (λ d : gmap string string, d !! "task_id") <$> outs
      = (λ k, Some ("T" +:+ pretty k)) <$> seq 1 (length task_templates)
    ∧ NoDup ((λ d : gmap string string, d !! "task_id") <$> outs)
    ∧ (λ d : gmap string string, d !! "result") <$> outs
      ≡ₚ (λ t, Some ("SubAgent completed task: " +:+ t)) <$> task_templates.
Proof.
  intros Hpos Hperm. unfold MorphAgent.split_subagents.
  rewrite split_subagents_with_returns by (done || apply SubAgent_catchable).
  eexists. split; [reflexivity|].
  assert (Hlen : length (handed_out order task_templates) = length task_templates)
    by by apply handed_out_length.
  split; [by rewrite length_imap|].
  rewrite labels_of_entries, Hlen.
  split; [done|]. split.
  - eapply @NoDup_fmap_2; [apply label_inj | apply NoDup_seq].
  - rewrite fmap_imap.
    rewrite (imap_ext _ (const (λ t, Some ("SubAgent completed task: " +:+ t))))
      by done.
    rewrite imap_const. by rewrite (handed_out_perm order task_templates Hperm).
Qed.

Lemma split_subagents_complete_witness :
  (1 ≤ 2)%Z
  ∧ [2; 0; 1] ≡ₚ seq 0 (length ["a"; "b"; "c"])
  ∧ ∃ outs,
      MorphAgent.outcome
        (MorphAgent.split_subagents 2 ["a"; "b"; "c"] (Completed <$> [2; 0; 1]))
      = Return outs
      ∧ length outs = length ["a"; "b"; "c"]
      ∧ (λ d : gmap string string, d !! "task_id") <$> outs
        = (λ k, Some ("T" +:+ pretty k)) <$> seq 1 (length ["a"; "b"; "c"])
      ∧ NoDup ((λ d : gmap string string, d !! "task_id") <$> outs)
      ∧ (λ d : gmap string string, d !! "result") <$> outs
        ≡ₚ (λ t, Some ("SubAgent completed task: " +:+ t)) <$> ["a"; "b"; "c"].
Proof.
  assert (Hperm : [2; 0; 1] ≡ₚ seq 0 (length ["a"; "b"; "c"])).
  { simpl. etrans; [apply perm_swap|]. apply perm_skip, perm_swap. }
  split; [lia|]. split; [exact Hperm|].
  apply (split_subagents_complete 2 ["a"; "b"; "c"] [2; 0; 1]); [lia | exact Hperm].
Defined.

(** ** C3: a failing worker yields an error outcome, if [except Exception] catches it *)






(** ** C4: exactly one of [result] and [error] *)

Lemma success_entry_wf idx res : outcome_wf (MorphAgent.success_entry idx res).
Proof.
  unfold outcome_wf.
  rewrite success_entry_result, success_entry_error, success_entry_status.
  split; [split; [done | by eexists] |].
  split; [split; [by intros [? ?] | done] |].
  split; [by intros [_ [? ?]] | left; by eexists].
Qed.

Lemma error_entry_wf idx exc : outcome_wf (MorphAgent.error_entry idx exc).
Proof.
  unfold outcome_wf.
  rewrite error_entry_result, error_entry_error, error_entry_status.
  split; [split; [by intros [? ?] | done] |].
  split; [split; [done | by eexists] |].
  split; [by intros [[? ?] _] | right; by eexists].
Qed.

Lemma drain_wf (it : list (py_result Future)) :
  ∀ idx results outs,
    Forall outcome_wf results →
    MorphAgent.drain idx it results = Return outs →
    Forall outcome_wf outs.
Proof.
  induction it as [|[future|e] it IH]; intros idx results outs Hwf Hret;
    simpl in Hret.
  - by injection Hret as <-.
  - destruct (result future) as [res|exc].
    + eapply IH; [|exact Hret].
      apply Forall_app. split; [done|]. apply Forall_singleton, success_entry_wf.
    + destruct (isinstance_Exception exc); [|discriminate Hret].
      eapply IH; [|exact Hret].
      apply Forall_app. split; [done|]. apply Forall_singleton, error_entry_wf.
  - discriminate Hret.
Qed.

(** C4: every outcome record of a list returned by [split_subagents],
    whatever the worker, the budget and the schedule, has a [result] field
    if and only if its status is [success] and an [error] field if and only
    if its status is [error]; it never has both fields, and never neither. *)
Theorem split_subagents_outcomes_wf
    (run : SubAgent.t → py_result string)
    (num_agents : Z) (task_templates : list string) (sched : list wait_event)
    (outs : list (gmap string string)) :
  MorphAgent.outcome
    (MorphAgent.split_subagents_with run num_agents task_templates sched)
  = Return outs →
  Forall outcome_wf outs.
Proof.
  unfold MorphAgent.split_subagents_with.
  destruct (ThreadPoolExecutor num_agents) as [executor|e]; simpl.
  - apply drain_wf. constructor.
  - discriminate.
Qed.

Lemma split_subagents_outcomes_wf_witness :
  ∃ outs,
    MorphAgent.outcome
      (MorphAgent.split_subagents_with fails_on_b 2 ["a"; "b"; "c"]
         (Completed <$> [1; 2; 0]))
    = Return outs
    ∧ length outs = 3
    ∧ Forall outcome_wf outs.
Proof.
  eexists. split; [vm_compute; reflexivity|]. split; [reflexivity|].
  apply (split_subagents_outcomes_wf fails_on_b 2 ["a"; "b"; "c"]
           (Completed <$> [1; 2; 0])).
  vm_compute. reflexivity.
Defined.

(** ** C5: no template, no outcome, no worker *)

Lemma handed_out_nil {A : Type} (order : list nat) :
  handed_out order ([] : list A) = [].
Proof. unfold handed_out. by induction order. Qed.

(** C5: for every budget [>= 1], a call with an empty list of templates
    returns the empty list and invokes no worker. *)
Theorem split_subagents_empty
    (run : SubAgent.t → py_result string) (num_agents : Z) (order : list nat) :
  (1 ≤ num_agents)%Z →
  MorphAgent.split_subagents_with run num_agents [] (Completed <$> order)
  = MorphAgent.mk_call [] (Return []).
Proof.
  intros Hpos. rewrite split_subagents_with_returns by done.
  by rewrite handed_out_nil.
Qed.

Lemma split_subagents_empty_witness :
  (1 ≤ 4)%Z
  ∧ MorphAgent.split_subagents_with SubAgent.run 4 [] (Completed <$> [])
    = MorphAgent.mk_call [] (Return []).
Proof.
  split; [lia|]. apply (split_subagents_empty SubAgent.run 4 []). lia.
Defined.

(** ** C6: a budget below 1 is refused before anything is scheduled *)

(** C6: for every budget [num_agents < 1] and every list of templates the
    call raises the [ValueError] of the executor's constructor; no worker
    is invoked and no outcome list is produced. *)
Theorem split_subagents_rejects_budget
    (run : SubAgent.t → py_result string)
    (num_agents : Z) (task_templates : list string) (sched : list wait_event) :
  (num_agents < 1)%Z →
  MorphAgent.split_subagents_with run num_agents task_templates sched
  = MorphAgent.mk_call [] (Raise (mk_exn ValueError "max_workers must be greater than 0")).
Proof.
  intros Hneg. unfold MorphAgent.split_subagents_with, ThreadPoolExecutor.
  destruct (Z.leb_spec num_agents 0) as [_|Hgt]; [reflexivity | lia].
Qed.

Lemma split_subagents_rejects_budget_witness :
  (0 < 1)%Z
  ∧ MorphAgent.split_subagents_with SubAgent.run 0 ["a"; "b"]
      (Completed <$> [0; 1])
    = MorphAgent.mk_call [] (Raise (mk_exn ValueError "max_workers must be greater than 0")).
Proof.
  split; [lia|].
  apply (split_subagents_rejects_budget SubAgent.run 0 ["a"; "b"]). lia.
Defined.

(** ** C7: an interrupted call reports nothing *)

Lemma drain_interrupted (e : exn) (it : list (py_result Future))
    (fs : list Future) :
  ∀ idx results,
    Forall (λ f, catchable (result f)) fs →
    MorphAgent.drain idx ((Return <$> fs) ++ Raise e :: it) results = Raise e.
Proof.
  induction fs as [|f fs IH]; intros idx results Hall; simpl; [done|].
  apply Forall_cons in Hall as [Hf Hall].
  destruct (result f) as [res|exc]; simpl in *.
  - by apply IH.
  - rewrite Hf. by apply IH.
Qed.

Lemma as_completed_app (sched1 sched2 : list wait_event) (fs : list Future) :
  as_completed (sched1 ++ sched2) fs
  = as_completed sched1 fs ++ as_completed sched2 fs.
Proof. unfold as_completed. apply omap_app. Qed.

Lemma as_completed_interrupted (e : exn) (rest : list wait_event)
    (fs : list Future) :
  as_completed (Interrupted e :: rest) fs = Raise e :: as_completed rest fs.
Proof. reflexivity. Qed.

(** C7, as stated, fails: with two templates, the first completed and the
    calling thread then interrupted, the call returns no list at all. *)
Lemma cancellation_reported_fails : ¬ cancellation_reported.
Proof.
  intros Hclaim.
  destruct (Hclaim 2%Z ["a"; "b"] [0] (mk_exn SystemExit "0"))
    as (outs & Hret & _).
  - lia.
  - apply NoDup_singleton.
  - apply Forall_singleton. simpl. lia.
  - simpl. lia.
  - vm_compute in Hret. discriminate Hret.
Qed.

(** C7, amended: [split_subagents] has no cancellation or timeout path.
    If an exception is raised in the calling thread while it waits for the
    next completed task, the call returns no outcome list, whatever had
    completed before: that exception leaves the call, after every submitted
    worker has been invoked. *)
Theorem split_subagents_interrupt_propagates
    (num_agents : Z) (task_templates : list string)
    (finished_first : list nat) (e : exn) (rest : list wait_event) :
  (1 ≤ num_agents)%Z →
  MorphAgent.split_subagents num_agents task_templates
    ((Completed <$> finished_first) ++ Interrupted e :: rest)
  = MorphAgent.mk_call task_templates (Raise e).
Proof.
  intros Hpos.
  unfold MorphAgent.split_subagents, MorphAgent.split_subagents_with,
    ThreadPoolExecutor.
  destruct (Z.leb_spec num_agents 0) as [Hle|_]; [lia|].
  f_equal.
  rewrite as_completed_app, as_completed_uninterrupted, handed_out_fmap,
    as_completed_interrupted.
  apply drain_interrupted, Forall_fmap, Forall_forall. by intros t _.
Qed.

Lemma split_subagents_interrupt_propagates_witness :
  (1 ≤ 5)%Z
  ∧ MorphAgent.split_subagents 5 ["a"; "b"; "c"; "d"; "e"]
      ((Completed <$> [3; 1]) ++ Interrupted (mk_exn SystemExit "0") :: [])
    = MorphAgent.mk_call ["a"; "b"; "c"; "d"; "e"]
        (Raise (mk_exn SystemExit "0")).
Proof.
  split; [lia|].
  apply (split_subagents_interrupt_propagates 5 ["a"; "b"; "c"; "d"; "e"]
           [3; 1] (mk_exn SystemExit "0") []).
  lia.
Defined.

(** ** C10: the placeholder worker always succeeds *)

(** C10: for every task string [t], [SubAgent(t).run()] returns the string
    [SubAgent completed task: ] followed by [t] and does not raise; hence
    every outcome returned by [split_subagents] has status [success] and
    its result is that string for one of the submitted templates. *)
Theorem SubAgent_run_echoes
    (t : string) (num_agents : Z) (task_templates : list string)
    (order : list nat) :
  (1 ≤ num_agents)%Z →
  order ≡ₚ seq 0 (length task_templates) →
  SubAgent.run (SubAgent.__init__ t)
  = Return ("SubAgent completed task: " +:+ t)
  ∧ ∃ outs,
      MorphAgent.outcome
        (MorphAgent.split_subagents num_agents task_templates
           (Completed <$> order))
      = Return outs
      ∧ length outs = length task_templates
      ∧ Forall (λ d : gmap string string,
                  d !! "status" = Some "success"
                  ∧ ∃ t', t' ∈ task_templates
                          ∧ d !! "result"
                            = Some ("SubAgent completed task: " +:+ t'))
               outs.
Proof.
  intros Hpos Hperm. split; [reflexivity|].
  unfold MorphAgent.split_subagents.
  rewrite split_subagents_with_returns by (done || apply SubAgent_catchable).
  eexists. split; [reflexivity|]. split.
  - by rewrite length_imap, handed_out_length.
  - apply Forall_lookup. intros k d Hd.
    rewrite list_lookup_imap in Hd.
    destruct (handed_out order task_templates !! k) as [t'|] eqn:Hk;
      [|discriminate Hd].
    injection Hd as <-. split; [reflexivity|].
    exists t'. split; [|reflexivity].
    eapply handed_out_elem_of, list_elem_of_lookup_2, Hk.
Qed.

Lemma SubAgent_run_echoes_witness :
  (1 ≤ 3)%Z
  ∧ [1; 0] ≡ₚ seq 0 (length ["x"; "y"])
  ∧ SubAgent.run (SubAgent.__init__ "x") = Return "SubAgent completed task: x"
  ∧ ∃ outs,
      MorphAgent.outcome
        (MorphAgent.split_subagents 3 ["x"; "y"] (Completed <$> [1; 0]))
      = Return outs
      ∧ length outs = length ["x"; "y"]
      ∧ Forall (λ d : gmap string string,
                  d !! "status" = Some "success"
                  ∧ ∃ t', t' ∈ ["x"; "y"]
                          ∧ d !! "result"
                            = Some ("SubAgent completed task: " +:+ t'))
               outs.
Proof.
  split; [lia|]. split; [apply perm_swap|].
  apply (SubAgent_run_echoes "x" 3 ["x"; "y"] [1; 0]); [lia | apply perm_swap].
Defined.

(** ** C8: the pool never runs more than min(c, n) workers at once *)

Lemma ThreadPoolExecutor_inv (c : Z) (n : nat) (p : pool) :
  ThreadPoolExecutor c = Return p → pool_inv n p ∧ max_workers p = c.
Proof.
  unfold ThreadPoolExecutor.
  destruct (Z.leb_spec c 0) as [|Hpos]; [discriminate|].
  intros [= <-]. unfold pool_inv. simpl.
  repeat split; try lia. done.
Qed.

Lemma _adjust_thread_count_inv (n : nat) (p : pool) :
  (Z.of_nat (threads p) ≤ max_workers p)%Z →
  (Z.of_nat (threads (_adjust_thread_count p))
   ≤ max_workers (_adjust_thread_count p))%Z
  ∧ threads (_adjust_thread_count p) ≤ S (threads p)
  ∧ threads p ≤ threads (_adjust_thread_count p)
  ∧ max_workers (_adjust_thread_count p) = max_workers p
  ∧ work_queue (_adjust_thread_count p) = work_queue p
  ∧ running (_adjust_thread_count p) = running p
  ∧ finished (_adjust_thread_count p) = finished p
  ∧ submitted (_adjust_thread_count p) = submitted p.
Proof.
  intros Hbudget. unfold _adjust_thread_count.
  destruct (idle_semaphore p) as [|v]; simpl.
  - destruct (Z.ltb_spec (Z.of_nat (threads p)) (max_workers p)); simpl;
      repeat split; lia.
  - repeat split; lia.
Qed.

Ltac pool_simpl :=
  cbn [max_workers threads idle_semaphore work_queue running finished submitted].
Tactic Notation "pool_simpl" "in" hyp(H) :=
  cbn [max_workers threads idle_semaphore work_queue running finished submitted]
    in H.

Lemma step_inv (n : nat) (a : action) (p p' : pool) :
  pool_inv n p → step n a p = Some p' →
  pool_inv n p' ∧ max_workers p' = max_workers p.
Proof.
  intros (Hbudget & Hthreads & Hsub & Hrun & Hperm) Hstep.
  destruct a as [| |k]; simpl in Hstep.
  - (* Submit *)
    destruct (decide (submitted p < n)) as [Hlt|]; [|discriminate].
    injection Hstep as <-.
    set (q := mk_pool (max_workers p) (threads p) (idle_semaphore p)
                      (work_queue p ++ [submitted p]) (running p) (finished p)
                      (S (submitted p))).
    destruct (_adjust_thread_count_inv n q)
      as (Hb & Ht & Hmono & Hmax & Hq & Hr & Hf & Hs);
      [subst q; pool_simpl; lia..|].
    rewrite Hmax in Hb.
    unfold pool_inv. rewrite Hq, Hr, Hf, Hs, Hmax.
    subst q. pool_simpl. pool_simpl in Hb. pool_simpl in Ht.
    pool_simpl in Hmono.
    repeat split; try lia.
    rewrite seq_S. cbn [Nat.add]. rewrite <- Hperm.
    rewrite <- !app_assoc. apply Permutation_app_head.
    rewrite (Permutation_app_comm [submitted p]).
    by rewrite <- !app_assoc.
  - (* Start *)
    destruct (work_queue p) as [|i queue'] eqn:Hqueue; [discriminate|].
    destruct (decide (length (running p) < threads p)) as [Hfree|];
      [|discriminate].
    injection Hstep as <-. unfold pool_inv. pool_simpl.
    repeat split; try lia.
    + rewrite length_app. simpl. lia.
    + rewrite <- Hperm, <- app_assoc. cbn [app].
      rewrite !app_assoc. symmetry. apply Permutation_middle.
  - (* Finish *)
    destruct (running p !! k) as [i|] eqn:Hk; [|discriminate].
    injection Hstep as <-. unfold pool_inv. pool_simpl.
    repeat split; try lia.
    + rewrite length_delete by done. lia.
    + rewrite <- Hperm.
      rewrite (delete_Permutation (running p) k i Hk) at 2.
      apply Permutation_app_head. cbn [app].
      rewrite app_assoc. symmetry. apply Permutation_cons_append.
Qed.

Lemma exec_inv (n : nat) (acts : list action) :
  ∀ p p', pool_inv n p → exec n acts p = Some p' →
          pool_inv n p' ∧ max_workers p' = max_workers p.
Proof.
  induction acts as [|a acts IH]; intros p p' Hinv Hexec; simpl in Hexec.
  - by injection Hexec as <-.
  - destruct (step n a p) as [p1|] eqn:Hstep; [|discriminate].
    destruct (step_inv n a p p1 Hinv Hstep) as [Hinv1 Hmax1].
    destruct (IH p1 p' Hinv1 Hexec) as [Hinv' Hmax'].
    split; [done | congruence].
Qed.

(** Once every work item is submitted and none waits or runs, the work
    items in the order they finished are a permutation of the positions
    [0 .. n-1]: every work item has finished exactly once. *)
Lemma finished_is_permutation (c : Z) (n : nat) (acts : list action)
    (p0 p : pool) :
  ThreadPoolExecutor c = Return p0 →
  exec n acts p0 = Some p →
  submitted p = n → work_queue p = [] → running p = [] →
  finished p ≡ₚ seq 0 n.
Proof.
  intros Hinit Hexec Hsub Hqueue Hrun.
  destruct (ThreadPoolExecutor_inv c n p0 Hinit) as [Hinv0 _].
  destruct (exec_inv n acts p0 p Hinv0 Hexec) as [(_ & _ & _ & _ & Hperm) _].
  by rewrite Hqueue, Hrun, Hsub in Hperm.
Qed.

(** C8: at every point of a run of [split_subagents] with budget [c] over
    [n] templates, the number of work items being run is at most
    [min(c, n)]. *)
Theorem running_within_budget (c : Z) (n : nat) (acts : list action)
    (p0 p : pool) :
  ThreadPoolExecutor c = Return p0 →
  exec n acts p0 = Some p →
  (Z.of_nat (length (running p)) ≤ Z.min c (Z.of_nat n))%Z.
Proof.
  intros Hinit Hexec.
  destruct (ThreadPoolExecutor_inv c n p0 Hinit) as [Hinv0 Hmax0].
  destruct (exec_inv n acts p0 p Hinv0 Hexec)
    as [(Hbudget & Hthreads & Hsub & Hrun & _) Hmax].
  rewrite Hmax, Hmax0 in Hbudget. lia.
Qed.

Lemma running_within_budget_witness :
  ThreadPoolExecutor 2 = Return (mk_pool 2 0 0 [] [] [] 0)
  ∧ exec 3 [Submit; Submit; Start; Submit; Start] (mk_pool 2 0 0 [] [] [] 0)
    = Some (mk_pool 2 2 0 [2] [0; 1] [] 3)
  ∧ (Z.of_nat (length (running (mk_pool 2 2 0 [2%nat] [0%nat; 1%nat] [] 3)))
     ≤ Z.min 2 (Z.of_nat 3))%Z.
Proof.
  split; [reflexivity|]. split; [reflexivity|].
  apply (running_within_budget 2 3 [Submit; Submit; Start; Submit; Start]
           (mk_pool 2 0 0 [] [] [] 0) (mk_pool 2 2 0 [2] [0; 1] [] 3));
    reflexivity.
Defined.

(** ** C9: the generators cut the catalog at the requested count *)

Lemma slice_to_nonneg {A : Type} (l : list A) (stop : Z) :
  (0 ≤ stop)%Z →
  slice_to l stop = take (Z.to_nat (Z.min stop (Z.of_nat (length l)))) l.
Proof.
  intros Hstop. unfold slice_to.
  destruct (Z.ltb_spec stop 0) as [|_]; [lia|].
  destruct (Z.le_ge_cases stop (Z.of_nat (length l))) as [Hle|Hge].
  - by rewrite Z.min_l.
  - rewrite Z.min_r, Nat2Z.id by done.
    rewrite firstn_all. apply take_ge. lia.
Qed.

Lemma task_generators_known :
  CodingAgent.task_generators !! "code_review"
  = Some CodingAgent._generate_review_tasks
  ∧ CodingAgent.task_generators !! "refactor"
    = Some CodingAgent._generate_refactor_tasks
  ∧ CodingAgent.task_generators !! "test"
    = Some CodingAgent._generate_test_tasks
  ∧ CodingAgent.task_generators !! "document"
    = Some CodingAgent._generate_document_tasks
  ∧ CodingAgent.task_generators !! "debug"
    = Some CodingAgent._generate_debug_tasks.
Proof. repeat split; reflexivity. Qed.

Lemma task_generators_unknown (task_type : string) :
  task_type ∉ ["code_review"; "refactor"; "test"; "document"; "debug"] →
  CodingAgent.task_generators !! task_type = None.
Proof.
  intros Hnot. unfold CodingAgent.task_generators.
  repeat (apply not_elem_of_cons in Hnot as [? Hnot]).
  rewrite !lookup_insert_ne by done. by apply lookup_singleton_ne.
Qed.

(** C9: for each of the task types [code_review], [refactor], [test],
    [document] and [debug] and every count [num_agents >= 0],
    [_generate_coding_tasks] returns the first [min(num_agents, 5)] entries
    of the five-entry catalog of that type, in catalog order; for every
    other task type it raises a [ValueError]. *)
Theorem generate_coding_tasks_catalog
    (num_agents : Z) (project_id : option string) :
  (0 ≤ num_agents)%Z →
  (∀ task_type catalog,
     (task_type, catalog) ∈ [ ("code_review", CodingAgent.review_tasks);
                              ("refactor", CodingAgent.refactor_tasks);
                              ("test", CodingAgent.test_tasks);
                              ("document", CodingAgent.document_tasks);
                              ("debug", CodingAgent.debug_tasks) ] →
     length catalog = 5
     ∧ CodingAgent._generate_coding_tasks task_type num_agents project_id
       = Return (take (Z.to_nat (Z.min num_agents 5)) catalog))
  ∧ (∀ task_type,
       task_type ∉ ["code_review"; "refactor"; "test"; "document"; "debug"] →
       CodingAgent._generate_coding_tasks task_type num_agents project_id
       = Raise (mk_exn ValueError ("不支持的任务类型: " +:+ task_type))).
Proof.
  intros Hcount. split.
  - intros task_type catalog Hin.
    destruct task_generators_known as (Hreview & Hrefactor & Htest & Hdoc & Hdebug).
    repeat (apply elem_of_cons in Hin as [[= -> ->]|Hin]);
      [..|by apply elem_of_nil in Hin];
      (split; [reflexivity|]);
      unfold CodingAgent._generate_coding_tasks.
    + rewrite Hreview. unfold CodingAgent._generate_review_tasks.
      by rewrite slice_to_nonneg.
    + rewrite Hrefactor. unfold CodingAgent._generate_refactor_tasks.
      by rewrite slice_to_nonneg.
    + rewrite Htest. unfold CodingAgent._generate_test_tasks.
      by rewrite slice_to_nonneg.
    + rewrite Hdoc. unfold CodingAgent._generate_document_tasks.
      by rewrite slice_to_nonneg.
    + rewrite Hdebug. unfold CodingAgent._generate_debug_tasks.
      by rewrite slice_to_nonneg.
  - intros task_type Hnot. unfold CodingAgent._generate_coding_tasks.
    by rewrite task_generators_unknown.
Qed.

Lemma generate_coding_tasks_catalog_witness :
  (0 ≤ 3)%Z
  ∧ CodingAgent._generate_coding_tasks "test" 3 None
    = Return (take 3 CodingAgent.test_tasks)
  ∧ CodingAgent._generate_coding_tasks "deploy" 3 None
    = Raise (mk_exn ValueError "不支持的任务类型: deploy").
Proof.
  split; [lia|].
  destruct (generate_coding_tasks_catalog 3 None) as [Hknown Hunknown]; [lia|].
  split.
  - apply (Hknown "test" CodingAgent.test_tasks).
    do 2 (apply elem_of_cons; right). apply elem_of_cons. by left.
  - apply (Hunknown "deploy").
    intros Hin. repeat (apply elem_of_cons in Hin as [Heq|Hin]; [discriminate Heq|]).
    by apply elem_of_nil in Hin.
Defined.

(** * Further properties of the dispatcher *)

Lemma drain_escapes (exc : exn) (f : Future) (it : list (py_result Future))
    (fs : list Future) :
  result f = Raise exc → isinstance_Exception exc = false →
  ∀ idx results,
    Forall (λ f', catchable (result f')) fs →
    MorphAgent.drain idx ((Return <$> fs) ++ Return f :: it) results = Raise exc.
Proof.
  intros Hf Hbase.
  induction fs as [|f' fs IH]; intros idx results Hall; simpl.
  - by rewrite Hf, Hbase.
  - apply Forall_cons in Hall as [Hf' Hall].
    destruct (result f') as [res|exc']; simpl in *.
    + by apply IH.
    + rewrite Hf'. by apply IH.
Qed.

Lemma handed_out_app {A : Type} (order1 order2 : list nat) (l : list A) :
  handed_out (order1 ++ order2) l = handed_out order1 l ++ handed_out order2 l.
Proof. unfold handed_out. apply omap_app. Qed.

(** X2: an exception of a worker that is not an instance of [Exception]
    ([KeyboardInterrupt], [SystemExit]) is not turned into an outcome: as
    soon as the future of that worker is handed out, the exception leaves
    [split_subagents], and the outcomes collected before it are lost. *)
Theorem split_subagents_base_exception_escapes
    (run : SubAgent.t → py_result string) (num_agents : Z)
    (task_templates : list string) (before after : list nat)
    (i : nat) (t : string) (exc : exn) :
  (1 ≤ num_agents)%Z →
  task_templates !! i = Some t →
  run (SubAgent.__init__ t) = Raise exc →
  isinstance_Exception exc = false →
  (∀ j t', j ∈ before → task_templates !! j = Some t' →
           catchable (run (SubAgent.__init__ t'))) →
  MorphAgent.split_subagents_with run num_agents task_templates
    (Completed <$> before ++ i :: after)
  = MorphAgent.mk_call task_templates (Raise exc).
Proof.
  intros Hpos Hi Hrun Hbase Hbefore.
  unfold MorphAgent.split_subagents_with, ThreadPoolExecutor.
  destruct (Z.leb_spec num_agents 0) as [|_]; [lia|].
  f_equal.
  rewrite as_completed_uninterrupted, handed_out_fmap, handed_out_app.
  assert (Hhere : handed_out (i :: after) task_templates
                  = t :: handed_out after task_templates).
  { unfold handed_out. simpl. by rewrite Hi. }
  rewrite Hhere, fmap_app, fmap_cons, fmap_app, fmap_cons.
  apply (drain_escapes exc); [exact Hrun | exact Hbase |].
  apply Forall_fmap, Forall_forall. intros t' Ht'. simpl.
  unfold handed_out in Ht'. apply list_elem_of_omap in Ht' as (j & Hj & Hjt).
  by eapply Hbefore.
Qed.

Lemma split_subagents_base_exception_escapes_witness :
  MorphAgent.split_subagents_with exits_on_b 2 ["a"; "b"; "c"]
    (Completed <$> [2] ++ 1 :: [0])
  = MorphAgent.mk_call ["a"; "b"; "c"] (Raise (mk_exn SystemExit "1")).
Proof.
  apply (split_subagents_base_exception_escapes exits_on_b 2 ["a"; "b"; "c"]
           [2] [0] 1 "b" (mk_exn SystemExit "1")).
  - lia.
  - reflexivity.
  - reflexivity.
  - reflexivity.
  - intros j t' Hj Ht'. apply list_elem_of_singleton in Hj. subst j.
    injection Ht' as <-. exact I.
Defined.

(** * The coding task sources *)

Lemma generate_coding_tasks_known (task_type : string) (catalog : list string)
    (num_agents : Z) (project_id : option string) :
  (task_type, catalog) ∈ task_catalogs →
  length catalog = 5
  ∧ CodingAgent._generate_coding_tasks task_type num_agents project_id
    = Return (slice_to catalog num_agents).
Proof.
  intros Hin. unfold task_catalogs in Hin.
  destruct task_generators_known as (Hreview & Hrefactor & Htest & Hdoc & Hdebug).
  unfold CodingAgent._generate_coding_tasks.
  repeat (apply elem_of_cons in Hin as [[= -> ->]|Hin]);
    [..|by apply elem_of_nil in Hin].
  - by rewrite Hreview.
  - by rewrite Hrefactor.
  - by rewrite Htest.
  - by rewrite Hdoc.
  - by rewrite Hdebug.
Qed.

Lemma task_catalogs_types (task_type : string) :
  task_type ∈ ["code_review"; "refactor"; "test"; "document"; "debug"] →
  ∃ catalog, (task_type, catalog) ∈ task_catalogs.
Proof.
  intros Hin. unfold task_catalogs.
  repeat (apply elem_of_cons in Hin as [->|Hin]);
    [..|by apply elem_of_nil in Hin]; eexists.
  - apply elem_of_cons. by left.
  - do 1 (apply elem_of_cons; right). apply elem_of_cons. by left.
  - do 2 (apply elem_of_cons; right). apply elem_of_cons. by left.
  - do 3 (apply elem_of_cons; right). apply elem_of_cons. by left.
  - do 4 (apply elem_of_cons; right). apply elem_of_cons. by left.
Qed.

(** X3: a negative count is not refused by the generators: for each of
    the five task types and every [num_agents < 0],
    [_generate_coding_tasks] returns the catalog without its last
    [-num_agents] entries (the first [5 + num_agents], none from -5
    down). *)
Theorem generate_coding_tasks_negative
    (task_type : string) (catalog : list string) (num_agents : Z)
    (project_id : option string) :
  (task_type, catalog) ∈ task_catalogs →
  (num_agents < 0)%Z →
  CodingAgent._generate_coding_tasks task_type num_agents project_id
  = Return (take (Z.to_nat (5 + num_agents)) catalog).
Proof.
  intros Hin Hneg.
  destruct (generate_coding_tasks_known task_type catalog num_agents
              project_id Hin) as [Hlen ->].
  unfold slice_to. destruct (Z.ltb_spec num_agents 0) as [_|]; [|lia].
  rewrite Hlen. do 2 f_equal. lia.
Qed.

Lemma generate_coding_tasks_negative_witness :
  ("debug", CodingAgent.debug_tasks) ∈ task_catalogs
  ∧ (-2 < 0)%Z
  ∧ CodingAgent._generate_coding_tasks "debug" (-2) None
    = Return (take 3 CodingAgent.debug_tasks).
Proof.
  assert (Hin : ("debug", CodingAgent.debug_tasks) ∈ task_catalogs).
  { unfold task_catalogs. do 4 (apply elem_of_cons; right).
    apply elem_of_cons. by left. }
  split; [exact Hin|]. split; [lia|].
  apply (generate_coding_tasks_negative "debug" CodingAgent.debug_tasks (-2)
           None Hin).
  lia.
Defined.

Lemma split_coding_subagents_accepted {P : Type} (code_projects : gmap string P)
    (task_type : string) (num_agents : Z) (project_id : option string)
    (sched : list wait_event) :
  project_accepted code_projects project_id →
  CodingAgent.split_coding_subagents code_projects task_type num_agents
    project_id sched
  = match CodingAgent._generate_coding_tasks task_type num_agents project_id with
    | Raise e => MorphAgent.mk_call [] (Raise e)
    | Return task_templates =>
        MorphAgent.split_subagents num_agents task_templates sched
    end.
Proof.
  intros Hok. unfold CodingAgent.split_coding_subagents.
  destruct project_id as [id|]; [|reflexivity].
  destruct Hok as [->|[p Hp]]; [reflexivity|].
  rewrite Hp, bool_decide_eq_false_2 by done.
  by rewrite andb_false_r.
Qed.

(** X4: for each of the five task types, an accepted project id and a
    count [num_agents >= 1], [split_coding_subagents] runs one worker per
    entry of the catalog prefix and returns [min(num_agents, 5)] outcomes --
    fewer than requested above 5 -- all of status [success], whose results
    are the echoes of the first [min(num_agents, 5)] catalog entries. *)
Theorem split_coding_subagents_count {P : Type}
    (code_projects : gmap string P) (task_type : string)
    (catalog : list string) (num_agents : Z) (project_id : option string)
    (order : list nat) :
  (task_type, catalog) ∈ task_catalogs →
  project_accepted code_projects project_id →
  (1 ≤ num_agents)%Z →
  order ≡ₚ seq 0 (Z.to_nat (Z.min num_agents 5)) →
  ∃ outs,
    CodingAgent.split_coding_subagents code_projects task_type num_agents
      project_id (Completed <$> order)
    = MorphAgent.mk_call (take (Z.to_nat (Z.min num_agents 5)) catalog)
        (Return outs)
    ∧ Z.of_nat (length outs) = Z.min num_agents 5
    ∧ Forall (λ d : gmap string string, d !! "status" = Some "success") outs
    ∧ (λ d : gmap string string, d !! "result") <$> outs
      ≡ₚ (λ t, Some ("SubAgent completed task: " +:+ t))
           <$> take (Z.to_nat (Z.min num_agents 5)) catalog.
Proof.
  intros Hin Hok Hpos Hperm.
  rewrite split_coding_subagents_accepted by done.
  destruct (generate_coding_tasks_known task_type catalog num_agents
              project_id Hin) as [Hlen ->].
  rewrite slice_to_nonneg, Hlen by lia.
  change (Z.of_nat 5) with 5%Z.
  set (tasks := take (Z.to_nat (Z.min num_agents 5)) catalog).
  assert (Htasks : length tasks = Z.to_nat (Z.min num_agents 5)).
  { subst tasks. rewrite length_take, Hlen. lia. }
  rewrite <- Htasks in Hperm.
  unfold MorphAgent.split_subagents.
  rewrite split_subagents_with_returns by (done || apply SubAgent_catchable).
  eexists. split; [reflexivity|].
  assert (Hlen' : length (handed_out order tasks) = length tasks)
    by by apply handed_out_length.
  split; [rewrite length_imap, Hlen', Htasks; lia|]. split.
  - apply Forall_lookup. intros k d Hd. rewrite list_lookup_imap in Hd.
    destruct (handed_out order tasks !! k); [|discriminate Hd].
    by injection Hd as <-.
  - rewrite fmap_imap.
    rewrite (imap_ext _ (const (λ t, Some ("SubAgent completed task: " +:+ t))))
      by done.
    rewrite imap_const. by rewrite (handed_out_perm order tasks Hperm).
Qed.

Lemma split_coding_subagents_count_witness :
  ∃ outs,
    CodingAgent.split_coding_subagents (∅ : gmap string unit) "test" 7 None
      (Completed <$> [4; 0; 3; 1; 2])
    = MorphAgent.mk_call (take (Z.to_nat (Z.min 7 5)) CodingAgent.test_tasks)
        (Return outs)
    ∧ Z.of_nat (length outs) = Z.min 7 5
    ∧ Forall (λ d : gmap string string, d !! "status" = Some "success") outs
    ∧ (λ d : gmap string string, d !! "result") <$> outs
      ≡ₚ (λ t, Some ("SubAgent completed task: " +:+ t))
           <$> take (Z.to_nat (Z.min 7 5)) CodingAgent.test_tasks.
Proof.
  apply (split_coding_subagents_count (∅ : gmap string unit) "test"
           CodingAgent.test_tasks 7 None [4; 0; 3; 1; 2]).
  - unfold task_catalogs. do 2 (apply elem_of_cons; right).
    apply elem_of_cons. by left.
  - exact I.
  - lia.
  - apply (bool_decide_unpack _). vm_compute. reflexivity.
Defined.

(** X5: for each of the five task types and an accepted project id, a
    count [num_agents <= 0] makes [split_coding_subagents] raise the
    [ValueError] of the executor, without invoking a worker -- also for
    the negative counts from -1 to -4, for which the generator has
    produced tasks. *)
Theorem split_coding_subagents_rejects_count {P : Type}
    (code_projects : gmap string P) (task_type : string)
    (catalog : list string) (num_agents : Z) (project_id : option string)
    (sched : list wait_event) :
  (task_type, catalog) ∈ task_catalogs →
  project_accepted code_projects project_id →
  (num_agents ≤ 0)%Z →
  CodingAgent.split_coding_subagents code_projects task_type num_agents
    project_id sched
  = MorphAgent.mk_call []
      (Raise (mk_exn ValueError "max_workers must be greater than 0")).
Proof.
  intros Hin Hok Hneg.
  rewrite split_coding_subagents_accepted by done.
  destruct (generate_coding_tasks_known task_type catalog num_agents
              project_id Hin) as [_ ->].
  unfold MorphAgent.split_subagents, MorphAgent.split_subagents_with,
    ThreadPoolExecutor.
  destruct (Z.leb_spec num_agents 0) as [_|]; [reflexivity | lia].
Qed.

Lemma split_coding_subagents_rejects_count_witness :
  CodingAgent._generate_coding_tasks "refactor" (-1) None
  = Return (take 4 CodingAgent.refactor_tasks)
  ∧ CodingAgent.split_coding_subagents (∅ : gmap string unit) "refactor" (-1)
      None (Completed <$> [0; 1; 2; 3])
    = MorphAgent.mk_call []
        (Raise (mk_exn ValueError "max_workers must be greater than 0")).
Proof.
  split; [reflexivity|].
  apply (split_coding_subagents_rejects_count (∅ : gmap string unit)
           "refactor" CodingAgent.refactor_tasks (-1) None).
  - unfold task_catalogs. apply elem_of_cons; right. apply elem_of_cons. by left.
  - exact I.
  - lia.
Defined.

(** X6: a project id that is not empty and is not the id of a project is
    refused first: [split_coding_subagents] raises the [ValueError] that
    names it, whatever the task type and the count, and nothing is
    generated or run. *)
Theorem split_coding_subagents_unknown_project {P : Type}
    (code_projects : gmap string P) (task_type : string) (num_agents : Z)
    (id : string) (sched : list wait_event) :
  id ≠ "" →
  code_projects !! id = None →
  CodingAgent.split_coding_subagents code_projects task_type num_agents
    (Some id) sched
  = MorphAgent.mk_call [] (Raise (mk_exn ValueError ("项目ID不存在: " +:+ id))).
Proof.
  intros Hid Hnone. unfold CodingAgent.split_coding_subagents.
  apply String.eqb_neq in Hid. rewrite Hid.
  by rewrite bool_decide_eq_true_2.
Qed.

Lemma split_coding_subagents_unknown_project_witness :
  "p1" ≠ ""
  ∧ ({[ "p0" := tt ]} : gmap string unit) !! "p1" = None
  ∧ CodingAgent.split_coding_subagents ({[ "p0" := tt ]} : gmap string unit)
      "no_such_type" 0 (Some "p1") []
    = MorphAgent.mk_call [] (Raise (mk_exn ValueError ("项目ID不存在: " +:+ "p1"))).
Proof.
  split; [discriminate|]. split; [reflexivity|].
  apply (split_coding_subagents_unknown_project
           ({[ "p0" := tt ]} : gmap string unit) "no_such_type" 0 "p1" []).
  - discriminate.
  - reflexivity.
Defined.

Lemma generate_coding_tasks_ignores_project (task_type : string)
    (num_agents : Z) (project_id project_id' : option string) :
  CodingAgent._generate_coding_tasks task_type num_agents project_id
  = CodingAgent._generate_coding_tasks task_type num_agents project_id'.
Proof.
  destruct (decide (task_type
                    ∈ ["code_review"; "refactor"; "test"; "document"; "debug"]))
    as [Hin|Hnot].
  - destruct (task_catalogs_types task_type Hin) as [catalog Hcat].
    destruct (generate_coding_tasks_known task_type catalog num_agents
                project_id Hcat) as [_ ->].
    by destruct (generate_coding_tasks_known task_type catalog num_agents
                   project_id' Hcat) as [_ ->].
  - unfold CodingAgent._generate_coding_tasks.
    by rewrite task_generators_unknown.
Qed.

(** X7: the project id is checked and then not used: with an accepted
    project id -- the id of a project, or the empty string, which is
    never looked up -- [split_coding_subagents] does exactly what it does
    without a project id. *)
Theorem split_coding_subagents_project_unused {P : Type}
    (code_projects : gmap string P) (task_type : string) (num_agents : Z)
    (project_id : option string) (sched : list wait_event) :
  project_accepted code_projects project_id →
  CodingAgent.split_coding_subagents code_projects task_type num_agents
    project_id sched
  = CodingAgent.split_coding_subagents code_projects task_type num_agents
      None sched.
Proof.
  intros Hok.
  rewrite (split_coding_subagents_accepted code_projects task_type num_agents
             project_id sched Hok).
  rewrite (split_coding_subagents_accepted code_projects task_type num_agents
             None sched I).
  by rewrite (generate_coding_tasks_ignores_project task_type num_agents
                project_id None).
Qed.

Lemma split_coding_subagents_project_unused_witness :
  project_accepted (∅ : gmap string unit) (Some "")
  ∧ CodingAgent.split_coding_subagents (∅ : gmap string unit) "document" 2
      (Some "") (Completed <$> [1; 0])
    = CodingAgent.split_coding_subagents (∅ : gmap string unit) "document" 2
        None (Completed <$> [1; 0]).
Proof.
  split; [by left|].
  apply (split_coding_subagents_project_unused (∅ : gmap string unit)
           "document" 2 (Some "")).
  by left.
Defined.

(** * src/utils.py: the history cut *)

(** X8: for [max_messages >= 1], [truncate_history] keeps the newest
    [min(len(history), max_messages)] messages in their order: the result
    is the history without its oldest [len(history) - max_messages]
    entries, and a suffix of the history. *)
Theorem truncate_history_keeps_newest {A : Type} (history : list A)
    (max_messages : Z) :
  (1 ≤ max_messages)%Z →
  utils.truncate_history history max_messages
  = drop (length history - Z.to_nat max_messages) history
  ∧ Z.of_nat (length (utils.truncate_history history max_messages))
    = Z.min (Z.of_nat (length history)) max_messages
  ∧ utils.truncate_history history max_messages `suffix_of` history.
Proof.
  intros Hpos.
  assert (Heq : utils.truncate_history history max_messages
                = drop (length history - Z.to_nat max_messages) history).
  { unfold utils.truncate_history, slice_from.
    destruct (Z.leb_spec (Z.of_nat (length history)) max_messages) as [Hle|Hgt].
    - replace (length history - Z.to_nat max_messages) with 0 by lia.
      by rewrite drop_0.
    - destruct (Z.ltb_spec (- max_messages) 0) as [_|]; [|lia].
      f_equal. lia. }
  rewrite Heq. split; [done|]. split.
  - rewrite length_drop. lia.
  - apply suffix_drop.
Qed.

Lemma truncate_history_keeps_newest_witness :
  (1 ≤ 2)%Z
  ∧ utils.truncate_history ["m1"; "m2"; "m3"] 2 = ["m2"; "m3"]
  ∧ utils.truncate_history ["m1"; "m2"; "m3"] 2 `suffix_of` ["m1"; "m2"; "m3"].
Proof.
  split; [lia|].
  destruct (truncate_history_keeps_newest ["m1"; "m2"; "m3"] 2) as (H1 & _ & H3);
    [lia|].
  split; [exact H1 | exact H3].
Defined.

(** X9: for [max_messages <= 0], [truncate_history] does not cut the
    history down to [max_messages] entries: it drops the oldest
    [-max_messages] messages and returns the rest, so that with
    [max_messages = 0] the whole history comes back. *)
Theorem truncate_history_nonpositive {A : Type} (history : list A)
    (max_messages : Z) :
  (max_messages ≤ 0)%Z →
  utils.truncate_history history max_messages
  = drop (Z.to_nat (- max_messages)) history
  ∧ (max_messages = 0%Z → utils.truncate_history history max_messages = history).
Proof.
  intros Hneg.
  assert (Heq : utils.truncate_history history max_messages
                = drop (Z.to_nat (- max_messages)) history).
  { unfold utils.truncate_history, slice_from.
    destruct (Z.leb_spec (Z.of_nat (length history)) max_messages) as [Hle|Hgt].
    - destruct history as [|x history]; [by rewrite drop_nil|].
      simpl in Hle. lia.
    - destruct (Z.ltb_spec (- max_messages) 0) as [|_]; [lia|]. done. }
  split; [exact Heq|].
  intros ->. rewrite Heq. apply drop_0.
Qed.

Lemma truncate_history_nonpositive_witness :
  (0 ≤ 0)%Z
  ∧ utils.truncate_history ["m1"; "m2"; "m3"] 0 = ["m1"; "m2"; "m3"]
  ∧ utils.truncate_history ["m1"; "m2"; "m3"] (-1) = ["m2"; "m3"].
Proof.
  split; [lia|]. split.
  - destruct (truncate_history_nonpositive ["m1"; "m2"; "m3"] 0) as [_ H0];
      [lia|].
    by apply H0.
  - destruct (truncate_history_nonpositive ["m1"; "m2"; "m3"] (-1)) as [H1 _];
      [lia|].
    exact H1.
Defined.

(** * Message handling *)

Lemma string_app_nil_r (s : string) : s +:+ "" = s.
Proof.
  induction s as [|c s IH]; [done|].
  change (String c (s +:+ "") = String c s). by rewrite IH.
Qed.

Lemma string_app_assoc (s1 s2 s3 : string) :
  (s1 +:+ s2) +:+ s3 = s1 +:+ s2 +:+ s3.
Proof.
  induction s1 as [|c s1 IH]; [done|].
  change (String c ((s1 +:+ s2) +:+ s3) = String c (s1 +:+ s2 +:+ s3)).
  by rewrite IH.
Qed.

Lemma join_empty_cons (x : string) (l : list string) :
  join "" (x :: l) = x +:+ join "" l.
Proof.
  unfold join. destruct l as [|y l].
  - cbn [String.concat]. by rewrite string_app_nil_r.
  - reflexivity.
Qed.

Lemma collect_stream_all (contents : list (option string)) :
  ∀ collected out,
    MorphAgent.collect_stream (Return <$> contents) collected out
    = (Return (collected ++ (default "" <$> contents)),
       out +:+ join "" (default "" <$> contents)).
Proof.
  induction contents as [|c contents IH]; intros collected out;
    cbn [fmap list_fmap MorphAgent.collect_stream].
  - by rewrite app_nil_r, string_app_nil_r.
  - rewrite IH, <- app_assoc, string_app_assoc. cbn [app].
    by rewrite <- join_empty_cons.
Qed.

Lemma collect_stream_raises (e : exn) (rest : list (py_result (option string)))
    (contents : list (option string)) :
  ∀ collected out,
    MorphAgent.collect_stream ((Return <$> contents) ++ Raise e :: rest)
      collected out
    = (Raise e, out +:+ join "" (default "" <$> contents)).
Proof.
  induction contents as [|c contents IH]; intros collected out;
    cbn [fmap list_fmap app MorphAgent.collect_stream].
  - by rewrite string_app_nil_r.
  - rewrite IH, string_app_assoc. by rewrite <- join_empty_cons.
Qed.

(** X10: when the model answers with a stream that ends normally,
    [process_message] returns after appending exactly two messages to the
    history -- the user's input with role [user], then the concatenation of
    the streamed texts (a chunk without text counting as empty) with role
    [assistant] -- and has printed that reply and a line feed; the model
    was called with the history that already ends with the user's
    message. *)
Theorem process_message_appends_exchange
    (client : list (gmap string string)
              → py_result (list (py_result (option string))))
    (self : MorphAgent.session) (user_input : string)
    (contents : list (option string)) :
  client (MorphAgent.conversation_history self
          ++ [MorphAgent.message "user" user_input])
  = Return (Return <$> contents) →
  MorphAgent.process_message client self user_input
  = (Return tt,
     MorphAgent.mk_session
       (MorphAgent.conversation_history self
        ++ [MorphAgent.message "user" user_input;
            MorphAgent.message "assistant" (join "" (default "" <$> contents))])
       (MorphAgent.stdout self +:+ join "" (default "" <$> contents)
        +:+ newline)).
Proof.
  intros Hclient.
  unfold MorphAgent.process_message, MorphAgent._stream_chat.
  cbn [MorphAgent.conversation_history MorphAgent.stdout].
  rewrite Hclient, collect_stream_all.
  cbn [app MorphAgent.conversation_history MorphAgent.stdout].
  by rewrite <- app_assoc, string_app_assoc.
Qed.

Lemma process_message_appends_exchange_witness :
  MorphAgent.process_message three_chunks
    (MorphAgent.mk_session [MorphAgent.message "system" "be brief"] "") "hi"
  = (Return tt,
     MorphAgent.mk_session
       ([MorphAgent.message "system" "be brief"]
        ++ [MorphAgent.message "user" "hi";
            MorphAgent.message "assistant"
              (join "" (default "" <$> [Some "Hel"; None; Some "lo"]))])
       ("" +:+ join "" (default "" <$> [Some "Hel"; None; Some "lo"])
        +:+ newline)).
Proof.
  apply (process_message_appends_exchange three_chunks
           (MorphAgent.mk_session [MorphAgent.message "system" "be brief"] "")
           "hi" [Some "Hel"; None; Some "lo"]).
  reflexivity.
Defined.

(** X11: when the model fails -- the request raises, or the stream raises
    after some chunks -- [process_message] raises that exception, and the
    history is left with the user's message appended and no reply to it. *)
Theorem process_message_failure_keeps_user_message
    (client : list (gmap string string)
              → py_result (list (py_result (option string))))
    (self : MorphAgent.session) (user_input : string) (e : exn) :
  (client (MorphAgent.conversation_history self
           ++ [MorphAgent.message "user" user_input]) = Raise e
   ∨ ∃ contents rest,
       client (MorphAgent.conversation_history self
               ++ [MorphAgent.message "user" user_input])
       = Return ((Return <$> contents) ++ Raise e :: rest)) →
  (MorphAgent.process_message client self user_input).1 = Raise e
  ∧ MorphAgent.conversation_history
      (MorphAgent.process_message client self user_input).2
    = MorphAgent.conversation_history self
      ++ [MorphAgent.message "user" user_input].
Proof.
  intros Hclient.
  unfold MorphAgent.process_message, MorphAgent._stream_chat.
  cbn [MorphAgent.conversation_history MorphAgent.stdout].
  destruct Hclient as [->|(contents & rest & ->)].
  - done.
  - by rewrite collect_stream_raises.
Qed.

Lemma process_message_failure_keeps_user_message_witness :
  (MorphAgent.process_message breaks_midway
     (MorphAgent.mk_session [MorphAgent.message "system" "be brief"] "")
     "hi").1
  = Raise (mk_exn RuntimeError "reset")
  ∧ MorphAgent.conversation_history
      (MorphAgent.process_message breaks_midway
         (MorphAgent.mk_session [MorphAgent.message "system" "be brief"] "")
         "hi").2
    = [MorphAgent.message "system" "be brief"]
      ++ [MorphAgent.message "user" "hi"].
Proof.
  apply (process_message_failure_keeps_user_message breaks_midway
           (MorphAgent.mk_session [MorphAgent.message "system" "be brief"] "")
           "hi" (mk_exn RuntimeError "reset")).
  right. exists [Some "Hel"], []. reflexivity.
Defined.

(** * src/tools.py: the registry *)

(** X12: a tool registered under a name is the one [call] runs for that
    name, whatever was registered under it before, and registering it
    changes no call under another name. *)
Theorem toolkit_register_call {Args R : Type}
    (_tools : gmap string (Args → R)) (name other : string)
    (func : Args → R) (args : Args) :
  other ≠ name →
  Toolkit.call (Toolkit.register _tools name func) name args
  = Toolkit.Called (func args)
  ∧ Toolkit.call (Toolkit.register _tools name func) other args
    = Toolkit.call _tools other args.
Proof.
  intros Hne. unfold Toolkit.call, Toolkit.register. split.
  - by rewrite lookup_insert_eq.
  - by rewrite lookup_insert_ne.
Qed.

Lemma toolkit_register_call_witness :
  "grep" ≠ "echo"
  ∧ Toolkit.call
      (Toolkit.register ({[ "echo" := λ x : string, "old" ]}
                         : gmap string (string → string))
         "echo" (λ x, x))
      "echo" "ping"
    = Toolkit.Called "ping"
  ∧ Toolkit.call
      (Toolkit.register ({[ "echo" := λ x : string, "old" ]}
                         : gmap string (string → string))
         "echo" (λ x, x))
      "grep" "ping"
    = Toolkit.call ({[ "echo" := λ x : string, "old" ]}
                    : gmap string (string → string))
        "grep" "ping".
Proof.
  split; [discriminate|].
  apply (toolkit_register_call
           ({[ "echo" := λ x : string, "old" ]} : gmap string (string → string))
           "echo" "grep" (λ x, x) "ping").
  discriminate.
Defined.

(** X13: a fresh [Toolkit] answers exactly the ten built-in names: a call
    under one of them runs a tool, a call under any other name raises the
    [KeyError] that names it. *)
Theorem toolkit_builtin_names {Args R : Type}
    (f1 f2 f3 f4 f5 f6 f7 f8 f9 f10 : Args → R) (name : string) (args : Args) :
  (name ∈ builtin_tool_names →
   ∃ r, Toolkit.call (Toolkit.__init__ f1 f2 f3 f4 f5 f6 f7 f8 f9 f10) name args
        = Toolkit.Called r)
  ∧ (name ∉ builtin_tool_names →
     Toolkit.call (Toolkit.__init__ f1 f2 f3 f4 f5 f6 f7 f8 f9 f10) name args
     = Toolkit.KeyError ("Tool '" +:+ name +:+ "' not registered")).
Proof.
  unfold builtin_tool_names. split.
  - intros Hin.
    repeat (apply elem_of_cons in Hin as [->|Hin]);
      [..|by apply elem_of_nil in Hin]; eexists; reflexivity.
  - intros Hnot.
    repeat (apply not_elem_of_cons in Hnot as [? Hnot]).
    unfold Toolkit.call, Toolkit.__init__, Toolkit._register_builtin_tools,
      Toolkit.register.
    cbv zeta. rewrite !lookup_insert_ne by done. by rewrite lookup_empty.
Qed.

Lemma toolkit_builtin_names_witness :
  (∃ r, Toolkit.call
          (Toolkit.__init__ (λ x : string, x) (λ x, x) (λ x, x) (λ x, x)
             (λ x, x) (λ x, x) (λ x, x) (λ x, x) (λ x, x) (λ x, x))
          "grep" "ping"
        = Toolkit.Called r)
  ∧ Toolkit.call
      (Toolkit.__init__ (λ x : string, x) (λ x, x) (λ x, x) (λ x, x)
         (λ x, x) (λ x, x) (λ x, x) (λ x, x) (λ x, x) (λ x, x))
      "code_analyze" "ping"
    = Toolkit.KeyError ("Tool '" +:+ "code_analyze" +:+ "' not registered").
Proof.
  split.
  - apply (toolkit_builtin_names (λ x : string, x) (λ x, x) (λ x, x) (λ x, x)
             (λ x, x) (λ x, x) (λ x, x) (λ x, x) (λ x, x) (λ x, x)
             "grep" "ping").
    unfold builtin_tool_names. do 4 (apply elem_of_cons; right).
    apply elem_of_cons. by left.
  - apply (toolkit_builtin_names (λ x : string, x) (λ x, x) (λ x, x) (λ x, x)
             (λ x, x) (λ x, x) (λ x, x) (λ x, x) (λ x, x) (λ x, x)
             "code_analyze" "ping").
    unfold builtin_tool_names. intros Hin.
    repeat (apply elem_of_cons in Hin as [Heq|Hin]; [discriminate Heq|]).
    by apply elem_of_nil in Hin.
Defined.

(** * src/cli.py: the todo list under [!split] and [!todos] *)

Section todo_facts.

Import MorphCLIController.

Lemma undone_from_cons (first : nat) (x : todo) (l : list todo) :
  undone_from first (x :: l)
  = if done x then undone_from (S first) l
    else (first, x) :: undone_from (S first) l.
Proof.
  unfold undone_from. rewrite imap_cons.
  rewrite (imap_ext _ (λ k t, (S first + k, t))).
  2:{ intros k t _. simpl. f_equal. lia. }
  rewrite Nat.add_0_r.
  destruct (done x) eqn:Hx.
  - rewrite filter_cons_False; [done|]. simpl. by rewrite Hx.
  - rewrite filter_cons_True; [done|]. simpl. by rewrite Hx.
Qed.

Lemma undone_is_undone_from (todos : list todo) :
  undone todos = (λ it : nat * todo, Ref it.1 it.2) <$> undone_from 0 todos.
Proof. reflexivity. Qed.

Lemma undone_from_items (l : list todo) :
  ∀ first, (undone_from first l).*2 = not_done l.
Proof.
  unfold not_done.
  induction l as [|x l IH]; intros first; [done|].
  rewrite undone_from_cons. destruct (done x) eqn:Hx.
  - rewrite filter_cons_False by (by rewrite Hx). apply IH.
  - rewrite filter_cons_True by done. rewrite fmap_cons. simpl. f_equal. apply IH.
Qed.


Lemma marked_idemp (t : todo) : marked (marked t) = marked t.
Proof. reflexivity. Qed.


Lemma mark_placeholders (n : nat) (s : string) (todos : list todo) :
  foldl mark_done todos (replicate n (Placeholder s)) = todos.
Proof. induction n as [|n IH]; [done | exact IH]. Qed.

End todo_facts.

Section split_command_facts.

Import MorphCLIController.

Variable isdigit : string → bool.
Variable int : string → py_result Z.
Variable write_results : list (gmap string string) → py_result unit.


(** The list [pending] after the padding, for a count that is not
    negative. *)
Lemma pending_shape (todos : list todo) (n : Z) :
  (0 ≤ n)%Z →
  (if (Z.of_nat (length (slice_to (undone todos) n)) <? n)%Z
   then slice_to (undone todos) n
        ++ replicate
             (Z.to_nat (n - Z.of_nat (length (slice_to (undone todos) n))))
             (Placeholder "空任务")
   else slice_to (undone todos) n)
  = ((λ it : nat * todo, Ref it.1 it.2)
       <$> take (Z.to_nat n) (undone_from 0 todos))
    ++ replicate (Z.to_nat n - length (take (Z.to_nat n) (undone_from 0 todos)))
         (Placeholder "空任务").
Proof.
  intros Hn. unfold slice_to.
  destruct (Z.ltb_spec n 0) as [|_]; [lia|].
  rewrite undone_is_undone_from, <- fmap_take, length_fmap.
  set (refs := take (Z.to_nat n) (undone_from 0 todos)).
  destruct (Z.ltb_spec (Z.of_nat (length refs)) n) as [Hlt|Hge].
  - do 2 f_equal. lia.
  - replace (Z.to_nat n - length refs) with 0 by lia.
    by rewrite app_nil_r.
Qed.

Lemma pending_tasks (todos : list todo) (n : Z) :
  task_of
    <$> (((λ it : nat * todo, Ref it.1 it.2)
            <$> take (Z.to_nat n) (undone_from 0 todos))
         ++ replicate
              (Z.to_nat n - length (take (Z.to_nat n) (undone_from 0 todos)))
              (Placeholder "空任务"))
  = split_tasks todos n.
Proof.
  unfold split_tasks.
  rewrite fmap_app, fmap_replicate, <- list_fmap_compose.
  rewrite <- (undone_from_items todos 0), <- fmap_take, <- list_fmap_compose.
  by rewrite !length_fmap.
Qed.

Lemma handle_split_command_parsed (todos : list todo) (arg : string)
    (rest : list string) (n : Z) (sched : list wait_event) :
  isdigit arg = true → int arg = Return n → (0 ≤ n)%Z →
  handle_split_command isdigit int write_results todos (arg :: rest) sched
  = match MorphAgent.outcome
            (MorphAgent.split_subagents n (split_tasks todos n) sched) with
    | Raise e => mk_handled todos (Some (n, split_tasks todos n)) (Raise e)
    | Return results =>
        let todos' :=
          foldl mark_done todos
            ((λ it : nat * todo, Ref it.1 it.2)
               <$> take (Z.to_nat n) (undone_from 0 todos)) in
        match write_results results with
        | Raise e => mk_handled todos' (Some (n, split_tasks todos n)) (Raise e)
        | Return _ =>
            mk_handled todos' (Some (n, split_tasks todos n)) (Return true)
        end
    end.
Proof.
  intros Hdigit Hint Hn. unfold handle_split_command.
  rewrite Hdigit, Hint. cbn [negb]. cbv zeta.
  rewrite (pending_shape todos n Hn), pending_tasks.
  by rewrite foldl_app, mark_placeholders.
Qed.

End split_command_facts.







(** X16: [!split 0] is not a no-op: the argument passes the digit check,
    the dispatcher is called with budget 0 and no task, and its
    [ValueError] leaves [handle_split_command]; the todo list is
    untouched. *)
Theorem handle_split_command_zero
    (isdigit : string → bool) (int : string → py_result Z)
    (write_results : list (gmap string string) → py_result unit)
    (todos : list MorphCLIController.todo) (arg : string)
    (rest : list string) (sched : list wait_event) :
  isdigit arg = true → int arg = Return 0%Z →
  MorphCLIController.handle_split_command isdigit int write_results todos
    (arg :: rest) sched
  = MorphCLIController.mk_handled todos (Some (0%Z, []))
      (Raise (mk_exn ValueError "max_workers must be greater than 0")).
Proof.
  intros Hdigit Hint.
  rewrite (handle_split_command_parsed isdigit int write_results todos arg
             rest 0 sched Hdigit Hint) by lia.
  reflexivity.
Qed.

Lemma handle_split_command_zero_witness :
  isdigit_1 "0" = true ∧ int_1 "0" = Return 0%Z
  ∧ MorphCLIController.handle_split_command isdigit_1 int_1 write_ok
      [MorphCLIController.mk_todo "a" false] ["0"] []
    = MorphCLIController.mk_handled [MorphCLIController.mk_todo "a" false]
        (Some (0%Z, []))
        (Raise (mk_exn ValueError "max_workers must be greater than 0")).
Proof.
  split; [reflexivity|]. split; [reflexivity|].
  apply (handle_split_command_zero isdigit_1 int_1 write_ok
           [MorphCLIController.mk_todo "a" false] "0" [] []); reflexivity.
Defined.

(** X17: [!todos done k] returns [True] and changes at most one item: the
    item at position [k], counted from 1, becomes done, every other item
    and every text stays as it was; for a number outside [1 .. len(todos)]
    -- 0 included, which does not wrap around to the last item -- nothing
    changes. *)
Theorem handle_todo_command_done
    (isdigit : string → bool) (int : string → py_result Z)
    (todos : list MorphCLIController.todo) (number : string)
    (rest : list string) (v : Z) :
  isdigit number = true → int number = Return v →
  MorphCLIController.returned
    (MorphCLIController.handle_todo_command isdigit int todos
       ("done" :: number :: rest))
  = Return true
  ∧ length (MorphCLIController.todos_after
              (MorphCLIController.handle_todo_command isdigit int todos
                 ("done" :: number :: rest)))
    = length todos
  ∧ ∀ j t,
      todos !! j = Some t →
      MorphCLIController.todos_after
        (MorphCLIController.handle_todo_command isdigit int todos
           ("done" :: number :: rest)) !! j
      = Some (MorphCLIController.mk_todo (MorphCLIController.text t)
                (MorphCLIController.done t
                 || bool_decide (Z.of_nat j + 1 = v)%Z)).
Proof.
  intros Hdigit Hint. unfold MorphCLIController.handle_todo_command.
  change (String.eqb "done" "list") with false.
  change (String.eqb "done" "add") with false.
  change (String.eqb "done" "done") with true.
  cbn [andb]. rewrite Hdigit, Hint. cbv zeta.
  destruct (Z.leb_spec 0 (v - 1)) as [Hlo|Hlo];
    destruct (Z.ltb_spec (v - 1) (Z.of_nat (length todos))) as [Hhi|Hhi];
    cbn [andb MorphCLIController.returned MorphCLIController.todos_after].
  1:{ split; [done|]. split; [apply length_alter|].
      intros j t Hj. destruct (decide (Z.to_nat (v - 1) = j)) as [<-|Hne].
      - rewrite list_lookup_alter_eq, Hj. simpl.
        rewrite bool_decide_eq_true_2 by lia. by rewrite orb_true_r.
      - rewrite list_lookup_alter_ne, Hj by done.
        rewrite bool_decide_eq_false_2 by lia.
        rewrite orb_false_r. by destruct t. }
  all: split; [done|]; split; [done|];
    intros j t Hj; rewrite Hj;
    apply lookup_lt_Some in Hj;
    rewrite bool_decide_eq_false_2 by lia;
    rewrite orb_false_r; by destruct t.
Qed.

Lemma handle_todo_command_done_witness :
  isdigit_1 "2" = true ∧ int_1 "2" = Return 2%Z
  ∧ MorphCLIController.todos_after
      (MorphCLIController.handle_todo_command isdigit_1 int_1
         [MorphCLIController.mk_todo "a" false;
          MorphCLIController.mk_todo "b" false]
         ["done"; "2"]) !! 1
    = Some (MorphCLIController.mk_todo "b" true)
  ∧ MorphCLIController.todos_after
      (MorphCLIController.handle_todo_command isdigit_1 int_1
         [MorphCLIController.mk_todo "a" false;
          MorphCLIController.mk_todo "b" false]
         ["done"; "0"])
    = [MorphCLIController.mk_todo "a" false;
       MorphCLIController.mk_todo "b" false].
Proof.
  split; [reflexivity|]. split; [reflexivity|]. split.
  - destruct (handle_todo_command_done isdigit_1 int_1
                [MorphCLIController.mk_todo "a" false;
                 MorphCLIController.mk_todo "b" false]
                "2" [] 2 eq_refl eq_refl) as (_ & _ & Hafter).
    exact (Hafter 1 (MorphCLIController.mk_todo "b" false) eq_refl).
  - reflexivity.
Defined.
